(** * torchgeo: sampler utilities and the AgriFieldNet dataset adapter

    A shallow embedding of [torchgeo/samplers/utils.py] and of the index
    query, class validation and label remapping of
    [torchgeo/datasets/agrifieldnet.py], with the properties stated about
    them.

    Conventions of the embedding:
    - Python [float] coordinates, sizes and resolutions are exact rationals
      ([Q]); equalities between computed coordinates are therefore stated
      with [==].  Python [int] values are [Z].
    - A Python exception is a value of [exn]; a call that may raise returns
      a [result].
    - Mutable objects that outlive a call (the pseudo-random generators of
      torch) live in an explicit store that the call threads through. *)

From Stdlib Require Import ZArith QArith Qround Qfield Lia Lqa List String Bool.
From stdpp Require Import base list.
Import ListNotations.

Set Default Proof Using "Type".

(** ** Exceptions and results *)

Inductive exn : Type :=
| AssertionError (msg : string)
| ZeroDivisionError
| ValueError (msg : string)
| IndexError (msg : string)
| KeyError (msg : string)
| DatasetNotFoundError.

Inductive result (A : Type) : Type :=
| Ok (a : A)
| Raise (e : exn).
Arguments Ok {A} a.
Arguments Raise {A} e.

Definition bind {A B} (r : result A) (k : A -> result B) : result B :=
  match r with
  | Ok a => k a
  | Raise e => Raise e
  end.

Definition is_ok {A} (r : result A) : bool :=
  match r with Ok _ => true | Raise _ => false end.

Declare Scope result_scope.
Delimit Scope result_scope with result.
Notation "'let*' x ':=' r 'in' k" := (bind r (fun x => k))
  (at level 10, x pattern, r at level 100, k at level 200) : result_scope.
Notation "'check' r 'in' k" := (bind r (fun _ => k))
  (at level 10, r at level 100, k at level 200) : result_scope.

(** [assert cond, msg] *)
Definition py_assert (cond : bool) (msg : string) : result unit :=
  if cond then Ok tt else Raise (AssertionError msg).

(** ** Numbers as Python has them *)

Definition Qlt_bool (x y : Q) : bool := negb (Qle_bool y x).

(** [int(x)] on a float: truncation toward zero. *)
Definition py_int (x : Q) : Z := Z.quot (Qnum x) (Z.pos (Qden x)).

(** [a / b] on floats raises when the divisor is zero. *)
Definition py_div (a b : Q) : result Q :=
  if Qeq_bool b 0 then Raise ZeroDivisionError else Ok (a / b)%Q.

(** ** torchgeo/samplers/utils.py *)

Section SamplerTypes.
Local Open Scope Q_scope.

(** A [size] or [res] argument: a single number or a pair. *)
Inductive tuple_or_float : Type :=
| Scalar (v : Q)
| Pair (v0 v1 : Q).

Definition _to_tuple (value : tuple_or_float) : Q * Q :=
  match value with
  | Scalar v => (v, v)
  | Pair v0 v1 => (v0, v1)
  end.

(** [bounds] is [(xmin, ymin, xmax, ymax)]. *)
Definition Bounds : Type := Q * Q * Q * Q.

(** The two slices [slice(xmin, xmax), slice(ymin, ymax)] that
    [get_random_bounding_box] returns. *)
Record BoxSlices : Type := mkBoxSlices {
  x_start : Q; x_stop : Q;
  y_start : Q; y_stop : Q
}.

(** *** Pseudo-random generators

    [torch.rand(1, generator=g).item()] advances the state of the generator
    object [g] and yields a number in [[0,1)].  Generator objects are
    addressed by a handle; handle [0] is the process-wide default generator
    that torch uses when [generator] is [None]. *)

Class Generator (G : Type) : Type := {
  rand : G -> Q * G;
  rand_range : forall g, 0 <= fst (rand g) /\ fst (rand g) < 1
}.

End SamplerTypes.

Section Sampling.
Local Open Scope Q_scope.

Context {G : Type} `{Generator G}.

Definition Store : Type := nat -> G.

Definition default_generator : nat := 0%nat.

Definition resolve (generator : option nat) : nat :=
  match generator with
  | None => default_generator
  | Some h => h
  end.

Definition store_set (st : Store) (h : nat) (g : G) : Store :=
  fun h' => if Nat.eqb h' h then g else st h'.

Definition torch_rand (generator : option nat) (st : Store) : Q * Store :=
  let h := resolve generator in
  let '(u, g') := rand (st h) in
  (u, store_set st h g').

Definition get_random_bounding_box
    (bounds : Bounds) (size res : tuple_or_float)
    (generator : option nat) (st : Store) : result BoxSlices * Store :=
  let '(xmin, ymin, xmax, ymax) := bounds in
  let t_size := _to_tuple size in
  let t_res := _to_tuple res in
  match py_div (xmax - xmin - snd t_size) (fst t_res) with
  | Raise e => (Raise e, st)
  | Ok width =>
    match py_div (ymax - ymin - fst t_size) (snd t_res) with
    | Raise e => (Raise e, st)
    | Ok height =>
      let '(u1, st1) := torch_rand generator st in
      let xmin' := xmin + inject_Z (py_int (u1 * width)) * fst t_res in
      let '(u2, st2) := torch_rand generator st1 in
      let ymin' := ymin + inject_Z (py_int (u2 * height)) * snd t_res in
      let xmax' := xmin' + snd t_size in
      let ymax' := ymin' + fst t_size in
      (Ok (mkBoxSlices xmin' xmax' ymin' ymax'), st2)
    end
  end.

(** The two draws of one call, with the generator state each leaves. *)
Definition draw1 (generator : option nat) (st : Store) : Q * G :=
  rand (st (resolve generator)).

Definition draw2 (generator : option nat) (st : Store) : Q * G :=
  rand (snd (draw1 generator st)).

End Sampling.

(** *** tile_to_chips *)

Section TileToChips.
Local Open Scope Q_scope.


End TileToChips.

(** A linear congruential generator, used to run the sampler on concrete
    inputs. *)
Definition lcg_modulus : positive := 2147483648.

Definition lcg_next (s : Z) : Z :=
  ((1103515245 * s + 12345) mod Z.pos lcg_modulus)%Z.

Definition lcg_rand (s : Z) : Q * Z :=
  let s' := lcg_next s in (Qmake s' lcg_modulus, s').

Definition lcg_rand_range (s : Z) :
  (0 <= fst (lcg_rand s) /\ fst (lcg_rand s) < 1)%Q.
Proof.
  pose proof (Z.mod_pos_bound (1103515245 * s + 12345) (Z.pos lcg_modulus)
                eq_refl) as Hb.
  fold (lcg_next s) in Hb.
  unfold lcg_rand, Qle, Qlt; cbn [fst Qnum Qden]. lia.
Qed.

#[export] Instance lcg_generator : Generator Z :=
  {| rand := lcg_rand; rand_range := lcg_rand_range |}.

(** ** pandas, geopandas and shapely, as the index query calls them *)

(** The [closed] attribute of a [pd.Interval] or a [pd.IntervalIndex]. *)
Inductive Closed : Type :=
| closed_right
| closed_left
| closed_both
| closed_neither.

Definition closed_on_left (c : Closed) : bool :=
  match c with closed_left | closed_both => true | _ => false end.

Definition closed_on_right (c : Closed) : bool :=
  match c with closed_right | closed_both => true | _ => false end.

(** Timestamps are integers (nanoseconds). *)
Record Interval : Type := mkInterval {
  i_left : Z;
  i_right : Z;
  i_closed : Closed
}.

(** [pd.Interval(left, right)]: [closed] defaults to ['right'], and the
    constructor refuses [left > right]. *)
Definition pd_Interval (l r : Z) : result Interval :=
  if (r <? l)%Z
  then Raise (ValueError "left side of interval must be <= right side")
  else Ok (mkInterval l r closed_right).

(** [Interval.overlaps]: equality of end points counts only where both
    sides are closed. *)
Definition interval_overlaps (self other : Interval) : bool :=
  let op1 :=
    if closed_on_left (i_closed self) && closed_on_right (i_closed other)
    then Z.leb else Z.ltb in
  let op2 :=
    if closed_on_left (i_closed other) && closed_on_right (i_closed self)
    then Z.leb else Z.ltb in
  op1 (i_left self) (i_right other) && op2 (i_left other) (i_right self).

(** [shapely.box(minx, miny, maxx, maxy)]: the rectangle spanned by the
    two corners, as a point set. *)
Record Box : Type := mkBox {
  minx : Q; miny : Q; maxx : Q; maxy : Q
}.

Definition Qmin_bool (a b : Q) : Q := if Qle_bool a b then a else b.
Definition Qmax_bool (a b : Q) : Q := if Qle_bool a b then b else a.

Definition shapely_box (x0 y0 x1 y1 : Q) : Box :=
  mkBox (Qmin_bool x0 x1) (Qmin_bool y0 y1) (Qmax_bool x0 x1) (Qmax_bool y0 y1).

(** [a.intersects(b)] on two rectangles: they share a point. *)
Definition intersects (a b : Box) : bool :=
  Qle_bool (minx a) (maxx b) && Qle_bool (minx b) (maxx a) &&
  Qle_bool (miny a) (maxy b) && Qle_bool (miny b) (maxy a).

(** Modelled from the spec: the rows of the dataset index, which
    [RasterDataset.__init__] builds in [torchgeo/datasets/geo.py].  A record
    is a file path, a bounding box and the end points of a time interval.
    Whether the intervals are closed on either side is an attribute of the
    index as a whole, [index_closed]. *)
Record Row : Type := mkRow {
  filepath : string;
  geometry : Box;
  datetime : Z * Z
}.

Record GeoDataFrame : Type := mkFrame {
  rows : list Row;
  index_closed : Closed
}.

Definition row_interval (c : Closed) (r : Row) : Interval :=
  mkInterval (fst (datetime r)) (snd (datetime r)) c.

(** [df.index.overlaps(interval)]: one boolean per row. *)
Definition IntervalIndex_overlaps (df : GeoDataFrame) (other : Interval)
    : list bool :=
  map (fun r => interval_overlaps (row_interval (index_closed df) r) other)
      (rows df).

(** [df.iloc[mask]] with a boolean mask. *)
Fixpoint iloc_mask {A} (l : list A) (mask : list bool) : list A :=
  match l, mask with
  | r :: l', b :: mask' =>
      if b then r :: iloc_mask l' mask' else iloc_mask l' mask'
  | _, _ => []
  end.

(** [range(start, stop, step)] for the slice [::step] over [n] items:
    Python starts at [0] for a positive step and at [n-1] for a negative
    one. *)
Definition slice_count (n : nat) (step : Z) : nat :=
  Z.to_nat ((Z.of_nat n + Z.abs step - 1) / Z.abs step).

Definition slice_first (n : nat) (step : Z) : Z :=
  if (0 <? step)%Z then 0%Z else (Z.of_nat n - 1)%Z.

Definition slice_positions (n : nat) (step : Z) : list Z :=
  map (fun i => (slice_first n step + Z.of_nat i * step)%Z)
      (seq 0 (slice_count n step)).

(** [df.iloc[::step]] *)
Definition iloc_stride {A} (l : list A) (step : Z) : result (list A) :=
  if (step =? 0)%Z then Raise (ValueError "slice step cannot be zero")
  else Ok (omap (fun p => l !! Z.to_nat p) (slice_positions (length l) step)).

(** [df.cx[x0:x1, y0:y1]] *)
Definition cx (l : list Row) (x0 x1 y0 y1 : Q) : list Row :=
  let bbox := shapely_box x0 y0 x1 y1 in
  let idx := map (fun r => intersects (geometry r) bbox) l in
  iloc_mask l idx.

(** ** torchgeo/datasets/agrifieldnet.py *)

(** A Python [slice] whose components are all present. *)
Record pyslice (A B : Type) : Type := mkSlice {
  start : A;
  stop : A;
  step : B
}.
Arguments mkSlice {A B}.
Arguments start {A B}.
Arguments stop {A B}.
Arguments step {A B}.

(** A query as the caller writes it: components may be omitted. *)
Record rawslice (A B : Type) : Type := mkRaw {
  raw_start : option A;
  raw_stop : option A;
  raw_step : option B
}.
Arguments mkRaw {A B}.
Arguments raw_start {A B}.
Arguments raw_stop {A B}.
Arguments raw_step {A B}.

Definition GeoSlice : Type := rawslice Q Q * rawslice Q Q * rawslice Z Z.

Definition Slices : Type := pyslice Q Q * pyslice Q Q * pyslice Z Z.

Definition Tensor : Type := list Q.

Definition Color : Type := Z * Z * Z * Z.

Inductive Paths : Type :=
| OnePath (p : string)
| ManyPaths (ps : list string).

Record Sample : Type := mkSample {
  sample_crs : string;
  sample_bounds : GeoSlice;
  sample_image : Tensor;
  sample_mask : list Z
}.

(** What a call does to the world outside the dataset object. *)
Inductive Effect : Type :=
| ReadRasters (files : list string) (query : GeoSlice)
| WalkDir (dir : string)
| MakeDirs (dir : string)
| AzCopySync (url dir : string).

(** The collaborators of the class that live outside this file
    ([RasterDataset] in [geo.py], [os], [re] and string formatting). *)
Record Env : Type := mkEnv {
  (** [self.files]: the files matching the glob *)
  files : Paths -> string -> list string;
  (** [RasterDataset.__init__]: builds the index and fixes the CRS *)
  raster_init : Paths -> option string -> list string
                -> result (GeoDataFrame * string);
  (** [self.bounds] *)
  bounds_of : GeoDataFrame -> Slices;
  (** [self._disambiguate_slice] *)
  _disambiguate_slice : GeoDataFrame -> GeoSlice -> Slices;
  (** [self._merge_files] *)
  _merge_files : list string -> GeoSlice -> Tensor;
  (** [os.walk]: the directories below a root, each with its files *)
  os_walk : string -> list (string * list string);
  os_path_join : string -> string -> string;
  os_path_basename : string -> string;
  os_path_dirname : string -> string;
  (** the span of group [band] when [filename_regex] matches *)
  match_band : string -> option (nat * nat);
  (** [str] of a query and of the bounds, as an f-string prints them *)
  str_query : GeoSlice -> string;
  str_bounds : Slices -> string
}.

Definition cmap : list (Z * Color) :=
  [ (0, (0, 0, 0, 255)); (1, (255, 211, 0, 255)); (2, (255, 37, 37, 255));
    (3, (0, 168, 226, 255)); (4, (255, 158, 9, 255)); (5, (37, 111, 0, 255));
    (6, (255, 255, 0, 255)); (8, (111, 166, 0, 255)); (9, (0, 175, 73, 255));
    (13, (222, 166, 9, 255)); (14, (222, 166, 9, 255));
    (15, (124, 211, 255, 255)); (16, (226, 0, 124, 255));
    (36, (137, 96, 83, 255)) ]%Z.

Definition cmap_keys : list Z := map fst cmap.

Definition url : string :=
  "https://radiantearth.blob.core.windows.net/mlhub/ref_agrifieldnet_competition_v1".

Definition filename_glob (band : string) : string :=
  String.append "ref_agrifieldnet_competition_v1_source_*_"
    (String.append band "_10m.*").

Definition Z_in (k : Z) (l : list Z) : bool := existsb (Z.eqb k) l.

(** [set(classes) <= self.cmap.keys()] *)
Definition classes_subset (classes : list Z) : bool :=
  forallb (fun k => Z_in k cmap_keys) classes.

Definition py_max (l : list Z) : Z :=
  match l with
  | [] => 0%Z
  | x :: l' => fold_left Z.max l' x
  end.

Definition cmap_getitem (k : Z) : result Color :=
  match find (fun kv => Z.eqb (fst kv) k) cmap with
  | Some kv => Ok (snd kv)
  | None => Raise (KeyError "")
  end.

(** *** torch tensors indexed along their first dimension

    An index [i] with [0 <= i < n] addresses item [i], an index with
    [-n <= i < 0] addresses item [n + i], anything else raises. *)

Definition tensor_position (n : nat) (i : Z) : result nat :=
  if (0 <=? i)%Z && (i <? Z.of_nat n)%Z then Ok (Z.to_nat i)
  else if (- Z.of_nat n <=? i)%Z && (i <? 0)%Z
       then Ok (Z.to_nat (Z.of_nat n + i))
       else Raise (IndexError "index out of range").

(** [t[i]] *)
Definition tensor_getitem {A} (t : list A) (i : Z) : result A :=
  (let* p := tensor_position (length t) i in
   match t !! p with
   | Some a => Ok a
   | None => Raise (IndexError "index out of range")
   end)%result.

(** [t[i] = a] *)
Definition tensor_setitem {A} (t : list A) (i : Z) (a : A)
    : result (list A) :=
  (let* p := tensor_position (length t) i in Ok (<[p := a]> t))%result.

(** [t[idx]] for a tensor [idx] of indices. *)
Fixpoint tensor_index {A} (t : list A) (idx : list Z) : result (list A) :=
  match idx with
  | [] => Ok []
  | i :: idx' =>
      (let* a := tensor_getitem t i in
       let* rest := tensor_index t idx' in
       Ok (a :: rest))%result
  end.

(** *** The dataset object *)

Record AgriFieldNet : Type := mkAgriFieldNet {
  paths : Paths;
  download : bool;
  glob : string;
  index : GeoDataFrame;
  crs : string;
  bands : list string;
  transforms : option (Sample -> Sample);
  ordinal_map : list Z;
  ordinal_cmap : list Color
}.

(** Lines 171-173: [for v, k in enumerate(classes)]. *)
Fixpoint fill_ordinals (v : nat) (classes : list Z)
    (omap : list Z) (ocmap : list Color) : result (list Z * list Color) :=
  match classes with
  | [] => Ok (omap, ocmap)
  | k :: rest =>
      (let* omap' := tensor_setitem omap k (Z.of_nat v) in
       let* c := cmap_getitem k in
       let* ocmap' := tensor_setitem ocmap (Z.of_nat v) c in
       fill_ordinals (S v) rest omap' ocmap')%result
  end.

(** Lines 168-173. *)
Definition build_ordinals (classes : list Z)
    : result (list Z * list Color) :=
  let omap := repeat 0%Z (Z.to_nat (py_max cmap_keys + 1)) in
  let ocmap := repeat (0, 0, 0, 0)%Z (length classes) in
  fill_ordinals 0 classes omap ocmap.

(** Lines 153-156. *)
Definition check_classes (classes : list Z) : result unit :=
  (check py_assert (classes_subset classes)
           "Only the following classes are valid" in
   py_assert (Z_in 0 classes)
     "Classes must include the background class: 0")%result.

Section Dataset.

Variable env : Env.

(** [_download] *)
Definition _download (p : Paths) : result unit * list Effect :=
  match p with
  | ManyPaths _ => (Raise (AssertionError ""), [])
  | OnePath root => (Ok tt, [MakeDirs root; AzCopySync url root])
  end.

(** [_verify] *)
Definition _verify (p : Paths) (g : string) (dl : bool)
    : result unit * list Effect :=
  match files env p g with
  | _ :: _ => (Ok tt, [])
  | [] => if dl then _download p else (Raise DatasetNotFoundError, [])
  end.

(** [AgriFieldNet.__init__] *)
Definition AgriFieldNet_init
    (p : Paths) (crs_arg : option string) (classes : list Z)
    (bands_arg : list string) (tf : option (Sample -> Sample))
    (dl : bool) : result AgriFieldNet * list Effect :=
  match check_classes classes with
  | Raise e => (Raise e, [])
  | Ok _ =>
    match bands_arg with
    | [] => (Raise (IndexError "tuple index out of range"), [])
    | band0 :: _ =>
      let g := filename_glob band0 in
      match _verify p g dl with
      | (Raise e, eff) => (Raise e, eff)
      | (Ok _, eff) =>
        (let* made := raster_init env p crs_arg bands_arg in
         let* ords := build_ordinals classes in
         Ok (mkAgriFieldNet p dl g (fst made) (snd made) bands_arg tf
               (fst ords) (snd ords)),
         eff)%result
      end
    end
  end.

(** Lines 189-193 of [__getitem__]: the rows of the index that the query
    selects. *)
Definition select_index (df : GeoDataFrame) (query : GeoSlice)
    : result (list Row) :=
  let '(x, y, t) := _disambiguate_slice env df query in
  (let* interval := pd_Interval (start t) (stop t) in
   let index1 := iloc_mask (rows df) (IntervalIndex_overlaps df interval) in
   let* index2 := iloc_stride index1 (step t) in
   Ok (cx index2 (start x) (stop x) (start y) (stop y)))%result.

(** Lines 205-213: the path of the file of [band] next to [filepath]. *)
Definition band_filepath (band : string) (fp : string) : string :=
  let filename := os_path_basename env fp in
  let directory := os_path_dirname env fp in
  let filename' :=
    match match_band env filename with
    | Some (s, e) =>
        String.append (substring 0 s filename)
          (String.append band
             (substring e (String.length filename - e) filename))
    | None => filename
    end in
  os_path_join env directory filename'.

Definition endswith (s suffix : string) : bool :=
  let n := String.length s in
  let m := String.length suffix in
  (m <=? n)%nat && String.eqb (substring (n - m) m s) suffix.

(** Lines 218-223. *)
Definition mask_filepaths (root : string) : list string :=
  flat_map
    (fun '(dir, fs) =>
       map (os_path_join env dir)
         (List.filter
            (fun f => negb (endswith f "_field_ids.tif") && endswith f ".tif")
            fs))
    (os_walk env (os_path_join env root "train_labels")).

Definition not_found_message (ds : AgriFieldNet) (query : GeoSlice)
    : string :=
  String.append "query: "
    (String.append (str_query env query)
       (String.append " not found in index with bounds: "
          (str_bounds env (bounds_of env (index ds))))).

(** [AgriFieldNet.__getitem__] *)
Definition AgriFieldNet_getitem (ds : AgriFieldNet) (query : GeoSlice)
    : result Sample * list Effect :=
  match paths ds with
  | ManyPaths _ => (Raise (AssertionError ""), [])
  | OnePath root =>
    match select_index (index ds) query with
    | Raise e => (Raise e, [])
    | Ok [] => (Raise (IndexError (not_found_message ds query)), [])
    | Ok (r :: rs) =>
      let band_files :=
        map (fun band => map (band_filepath band) (map filepath (r :: rs)))
            (bands ds) in
      let data_list := map (fun fs => _merge_files env fs query) band_files in
      let image := concat data_list in
      let mfiles := mask_filepaths root in
      let mask := _merge_files env mfiles query in
      let eff :=
        map (fun fs => ReadRasters fs query) band_files ++
        [WalkDir (os_path_join env root "train_labels");
         ReadRasters mfiles query] in
      match tensor_index (ordinal_map ds) (map py_int mask) with
      | Raise e => (Raise e, eff)
      | Ok mask' =>
        let sample := mkSample (crs ds) query image mask' in
        (Ok (match transforms ds with
             | Some f => f sample
             | None => sample
             end), eff)
      end
    end
  end.

End Dataset.

(** *** plot

    Lines 279-284 (the channels of the RGB panel) and lines 299 and 305 (the
    colours of the mask and prediction panels).  The arithmetic on the image
    (lines 286-287) and the calls into matplotlib are left out; the figure is
    the data handed to them. *)

Inductive plot_exn : Type :=
| RGBBandsMissingError
| PlotError (e : exn).

Inductive plotted (A : Type) : Type :=
| Drawn (a : A)
| PlotRaise (e : plot_exn).
Arguments Drawn {A} a.
Arguments PlotRaise {A} e.

Definition rgb_bands : list string := ["B04"; "B03"; "B02"]%string.

(** [band in bands] *)
Definition str_in (band : string) (l : list string) : bool :=
  existsb (String.eqb band) l.

(** [bands.index(band)] *)
Fixpoint list_index (band : string) (l : list string) : option nat :=
  match l with
  | [] => None
  | a :: l' =>
      if String.eqb a band then Some O else option_map S (list_index band l')
  end.

(** Lines 279-284; [None] stands for [raise RGBBandsMissingError()]. *)
Fixpoint rgb_indices (rgb bands_ : list string) : option (list nat) :=
  match rgb with
  | [] => Some []
  | band :: rgb' =>
      if str_in band bands_ then
        match list_index band bands_, rgb_indices rgb' bands_ with
        | Some i, Some rest => Some (i :: rest)
        | _, _ => None
        end
      else None
  end.

Record PlotSample : Type := mkPlotSample {
  plot_image : Tensor;
  plot_mask : list Z;
  plot_prediction : option (list Z)
}.

Record Figure : Type := mkFigure {
  fig_channels : list nat;
  fig_ncols : nat;
  fig_mask : list Color;
  fig_prediction : option (list Color)
}.

Definition plot (ds : AgriFieldNet) (sample : PlotSample) : plotted Figure :=
  match rgb_indices rgb_bands (bands ds) with
  | None => PlotRaise RGBBandsMissingError
  | Some channels =>
      let ncols := match plot_prediction sample with
                   | Some _ => 3%nat
                   | None => 2%nat
                   end in
      match tensor_index (ordinal_cmap ds) (plot_mask sample) with
      | Raise e => PlotRaise (PlotError e)
      | Ok mask_colors =>
          match plot_prediction sample with
          | None => Drawn (mkFigure channels ncols mask_colors None)
          | Some pred =>
              match tensor_index (ordinal_cmap ds) pred with
              | Raise e => PlotRaise (PlotError e)
              | Ok pred_colors =>
                  Drawn (mkFigure channels ncols mask_colors
                           (Some pred_colors))
              end
          end
      end
  end.

(** ** A small world to run the dataset in

    Collaborators that answer from a fixed index and a fixed label raster;
    used to evaluate the class on concrete inputs. *)

Definition fill_slice {A B} (d : pyslice A B) (r : rawslice A B)
    : pyslice A B :=
  mkSlice (default (start d) (raw_start r)) (default (stop d) (raw_stop r))
          (default (step d) (raw_step r)).

Definition demo_bounds : Slices :=
  (mkSlice 0%Q 10%Q 1%Q, mkSlice 0%Q 10%Q 1%Q, mkSlice 0%Z 100%Z 1%Z).

Definition demo_disambiguate (q : GeoSlice) : Slices :=
  let '(bx, by_, bt) := demo_bounds in
  let '(qx, qy, qt) := q in
  (fill_slice bx qx, fill_slice by_ qy, fill_slice bt qt).

Definition demo_env (df : GeoDataFrame) (labels : Tensor) : Env :=
  {| files := fun _ _ => map filepath (rows df);
     raster_init := fun _ _ _ => Ok (df, "EPSG:32644"%string);
     bounds_of := fun _ => demo_bounds;
     _disambiguate_slice := fun _ q => demo_disambiguate q;
     _merge_files := fun _ _ => labels;
     os_walk := fun root => [(root, ["a.tif"; "a_field_ids.tif"]%string)];
     os_path_join := fun a b => String.append a (String.append "/" b);
     os_path_basename := fun p => p;
     os_path_dirname := fun _ => "."%string;
     match_band := fun _ => None;
     str_query := fun _ => "<query>"%string;
     str_bounds := fun _ => "<bounds>"%string |}.

Definition demo_row (t0 t1 : Z) : Row :=
  mkRow "tile_B01_10m.tif" (mkBox 0 0 10 10) (t0, t1).

Definition demo_frame (c : Closed) : GeoDataFrame :=
  mkFrame [demo_row 5 10] c.

Definition whole (x0 x1 y0 y1 : Q) (t0 t1 : Z) : GeoSlice :=
  (mkRaw (Some x0) (Some x1) None, mkRaw (Some y0) (Some y1) None,
   mkRaw (Some t0) (Some t1) None).

Definition demo_dataset : AgriFieldNet :=
  mkAgriFieldNet (OnePath "root") false (filename_glob "B01")
    (demo_frame closed_both) "EPSG:32644" ["B01"%string] None
    (repeat 0%Z 37) (repeat (0, 0, 0, 0)%Z 14).

(** The dataset that [__init__] builds in that world for the classes
    [[0, 1]], with a label raster holding the value [40]. *)
Definition demo_labels : Tensor := [1%Q; 40%Q].

Definition demo_built : AgriFieldNet :=
  match fst (AgriFieldNet_init (demo_env (demo_frame closed_both) demo_labels)
               (OnePath "root") None [0; 1]%Z ["B01"%string] None false) with
  | Ok ds => ds
  | Raise _ => demo_dataset
  end.


(** A world whose regular expression finds the band at characters 5 to 8
    of every file name. *)
Definition demo_band_env : Env :=
  {| files := fun _ _ => [];
     raster_init := fun _ _ _ => Raise DatasetNotFoundError;
     bounds_of := fun _ => demo_bounds;
     _disambiguate_slice := fun _ q => demo_disambiguate q;
     _merge_files := fun _ _ => [];
     os_walk := fun _ => [];
     os_path_join := fun a b => String.append a (String.append "/" b);
     os_path_basename := fun p => p;
     os_path_dirname := fun _ => "."%string;
     match_band := fun _ => Some (5, 8)%nat;
     str_query := fun _ => "<query>"%string;
     str_bounds := fun _ => "<bounds>"%string |}.

(** ** Reference definitions

    These follow the words of the specification; the properties below
    compare them with the code. *)


(** "Take every [step]-th record": the first record, then the one [k]
    places later, and so on. *)
Fixpoint stride_aux {A} (gap skip : nat) (l : list A) : list A :=
  match l with
  | [] => []
  | a :: l' =>
      match skip with
      | O => a :: stride_aux gap gap l'
      | S skip' => stride_aux gap skip' l'
      end
  end.

Definition every_nth {A} (k : nat) (l : list A) : list A :=
  stride_aux (k - 1) 0 l.

(** A negative step walks the records from the last one backwards. *)
Definition every_step {A} (step : Z) (l : list A) : list A :=
  if (0 <? step)%Z then every_nth (Z.to_nat step) l
  else every_nth (Z.to_nat (- step)) (reverse l).


(** The overlap test with the query interval [(qs, qe]]: a record interval
    that is closed on the left also overlaps when it starts at [qe]. *)
Definition time_overlaps (records : Closed) (ab : Z * Z) (qs qe : Z) : bool :=
  (if closed_on_left records then (fst ab <=? qe)%Z else (fst ab <? qe)%Z)
  && (qs <? snd ab)%Z.

(** "Bounding box intersects the rectangular region
    [[x.start, x.stop] x [y.start, y.stop]]". *)
Definition meets_rectangle (g : Box) (x0 x1 y0 y1 : Q) : bool :=
  Qle_bool (minx g) x1 && Qle_bool x0 (maxx g) &&
  Qle_bool (miny g) y1 && Qle_bool y0 (maxy g).


(** The position of the last occurrence of [k] in [l]. *)
Fixpoint last_position (k : Z) (l : list Z) : option nat :=
  match l with
  | [] => None
  | a :: l' =>
      match last_position k l' with
      | Some j => Some (S j)
      | None => if Z.eqb a k then Some O else None
      end
  end.

(** The ordinal of a raw class id: the position of its last occurrence in
    the class list, and [0] for an id that is not listed. *)
Definition ordinal_of (classes : list Z) (k : Z) : Z :=
  match last_position k classes with
  | Some v => Z.of_nat v
  | None => 0%Z
  end.


(** * Properties *)

(** ** Numbers *)

Section NumberFacts.
Local Open Scope Q_scope.

Lemma Qlt_bool_iff x y : Qlt_bool x y = true <-> x < y.
Proof.
  unfold Qlt_bool. rewrite negb_true_iff. split.
  - intros Hb. apply Qnot_le_lt. intros Hle.
    apply Qle_bool_iff in Hle. congruence.
  - intros Hlt. destruct (Qle_bool y x) eqn:E; [|reflexivity].
    apply Qle_bool_iff in E. exfalso. exact (Qlt_not_le _ _ Hlt E).
Qed.

Lemma Qlt_bool_false_iff x y : Qlt_bool x y = false <-> ~ x < y.
Proof.
  rewrite <- Qlt_bool_iff. destruct (Qlt_bool x y); split; congruence.
Qed.

Lemma py_div_ok a b : ~ b == 0 -> py_div a b = Ok (a / b).
Proof.
  intros Hb. unfold py_div. destruct (Qeq_bool b 0) eqn:E; [|reflexivity].
  apply Qeq_bool_iff in E. contradiction.
Qed.

Lemma py_div_zero a b : b == 0 -> py_div a b = Raise ZeroDivisionError.
Proof.
  intros Hb. unfold py_div. apply Qeq_bool_iff in Hb. now rewrite Hb.
Qed.




End NumberFacts.

(** ** tile_to_chips *)

Section TileToChipsFacts.
Local Open Scope Q_scope.








End TileToChipsFacts.

(** ** get_random_bounding_box *)

Section SamplingFacts.
Local Open Scope Q_scope.

Context {G : Type} `{Generator G}.

Lemma store_set_same (st : Store) h (g : G) : store_set st h g h = g.
Proof. unfold store_set. now rewrite Nat.eqb_refl. Qed.

Lemma store_set_other (st : Store) h h' (g : G) :
  h' <> h -> store_set st h g h' = st h'.
Proof.
  intros Hne. unfold store_set.
  destruct (Nat.eqb h' h) eqn:E; [|reflexivity].
  apply Nat.eqb_eq in E. contradiction.
Qed.

Lemma get_random_bounding_box_run
    xmin ymin xmax ymax size res generator (st : Store) :
  let t_size := _to_tuple size in
  let t_res := _to_tuple res in
  ~ fst t_res == 0 -> ~ snd t_res == 0 ->
  let width := (xmax - xmin - snd t_size) / fst t_res in
  let height := (ymax - ymin - fst t_size) / snd t_res in
  let u1 := fst (draw1 generator st) in
  let u2 := fst (draw2 generator st) in
  let x0 := xmin + inject_Z (py_int (u1 * width)) * fst t_res in
  let y0 := ymin + inject_Z (py_int (u2 * height)) * snd t_res in
  get_random_bounding_box (xmin, ymin, xmax, ymax) size res generator st =
  (Ok (mkBoxSlices x0 (x0 + snd t_size) y0 (y0 + fst t_size)),
   store_set (store_set st (resolve generator) (snd (draw1 generator st)))
     (resolve generator) (snd (draw2 generator st))).
Proof.
  intros t_size t_res Hx Hy width height u1 u2 x0 y0.
  unfold get_random_bounding_box. fold t_size t_res.
  rewrite (py_div_ok _ _ Hx), (py_div_ok _ _ Hy).
  subst x0 y0 u1 u2. unfold torch_rand, draw2, draw1.
  destruct (rand (st (resolve generator))) as [a g1]. cbn [fst snd].
  rewrite store_set_same.
  destruct (rand g1) as [b g2]. reflexivity.
Qed.



End SamplingFacts.

Section RandomBox.
Local Open Scope Q_scope.

Context {G : Type} `{Generator G}.


(** C8: the box that [get_random_bounding_box] returns is a function of
    its arguments and of the state of the one generator it draws from (the
    generator passed, or the process-wide default when none is passed):
    stores that agree on that generator give the same box and leave that
    generator in the same state, and no other generator is touched. *)
Theorem random_box_deterministic
    bounds size res generator (st1 st2 : Store) :
  st1 (resolve generator) = st2 (resolve generator) ->
  fst (get_random_bounding_box bounds size res generator st1) =
  fst (get_random_bounding_box bounds size res generator st2) /\
  snd (get_random_bounding_box bounds size res generator st1)
      (resolve generator) =
  snd (get_random_bounding_box bounds size res generator st2)
      (resolve generator) /\
  (forall h', h' <> resolve generator ->
     snd (get_random_bounding_box bounds size res generator st1) h' = st1 h').
Proof.
  intros Hsame. destruct bounds as [[[xmin ymin] xmax] ymax].
  unfold get_random_bounding_box.
  destruct (py_div _ (fst (_to_tuple res))) as [width|e];
    [|cbn [fst snd]; auto].
  destruct (py_div _ (snd (_to_tuple res))) as [height|e];
    [|cbn [fst snd]; auto].
  unfold torch_rand. rewrite <- Hsame.
  destruct (rand (st1 (resolve generator))) as [a g1].
  rewrite !store_set_same.
  destruct (rand g1) as [b g2]. cbn [fst snd].
  rewrite !store_set_same.
  split; [reflexivity|]. split; [reflexivity|].
  intros h' Hne. rewrite !store_set_other by exact Hne. reflexivity.
Qed.


End RandomBox.

Section RandomBoxInstances.
Local Open Scope Q_scope.



Lemma random_box_deterministic_witness :
  (fun _ : nat => 7%Z) (resolve (Some 3%nat)) =
  (fun h : nat => if Nat.eqb h 3 then 7%Z else 99%Z) (resolve (Some 3%nat)) /\
  fst (get_random_bounding_box (0, 0, 10, 10) (Scalar 4) (Scalar 2)
         (Some 3%nat) (fun _ => 7%Z)) =
  fst (get_random_bounding_box (0, 0, 10, 10) (Scalar 4) (Scalar 2)
         (Some 3%nat) (fun h => if Nat.eqb h 3 then 7%Z else 99%Z)).
Proof.
  split; [reflexivity|].
  exact (proj1 (random_box_deterministic (G := Z) (0, 0, 10, 10) (Scalar 4)
                  (Scalar 2) (Some 3%nat) (fun _ => 7%Z)
                  (fun h => if Nat.eqb h 3 then 7%Z else 99%Z) eq_refl)).
Defined.



End RandomBoxInstances.

(** ** Selecting rows: masks and strides *)

Section RowSelection.

Context {A : Type}.

Lemma iloc_mask_map (f : A -> bool) (l : list A) :
  iloc_mask l (map f l) = List.filter f l.
Proof.
  induction l as [|a l IH]; [reflexivity|].
  cbn [map iloc_mask List.filter]. rewrite IH. reflexivity.
Qed.

Lemma stride_aux_lookup (gap : nat) (l : list A) :
  forall skip i, stride_aux gap skip l !! i = l !! (skip + i * S gap)%nat.
Proof.
  induction l as [|a l IH]; intros skip i; [reflexivity|].
  destruct skip as [|skip]; cbn [stride_aux].
  - destruct i as [|i]; [reflexivity|].
    cbn [lookup list_lookup]. rewrite IH.
    replace (0 + S i * S gap)%nat with (S (gap + i * S gap)) by lia.
    reflexivity.
  - rewrite IH. reflexivity.
Qed.

Lemma every_nth_lookup (k : nat) (l : list A) i :
  (0 < k)%nat -> every_nth k l !! i = l !! (i * k)%nat.
Proof.
  intros Hk. unfold every_nth. rewrite stride_aux_lookup.
  replace (S (k - 1)) with k by lia. reflexivity.
Qed.

Lemma stride_aux_elem (gap : nat) (l : list A) :
  forall skip a, In a (stride_aux gap skip l) -> In a l.
Proof.
  induction l as [|b l IH]; intros skip a; [intros []|].
  destruct skip as [|skip]; cbn [stride_aux].
  - intros [Hab | Hin]; [left; exact Hab | right; eapply IH; exact Hin].
  - intros Hin. right. eapply IH. exact Hin.
Qed.

(** Gathering the items at given positions, all of them inside the list. *)
Lemma gather_length (l : list A) (pos : nat -> nat) :
  forall c b,
    (forall j, (b <= j < b + c)%nat -> (pos j < length l)%nat) ->
    length (omap (fun j => l !! pos j) (seq b c)) = c.
Proof.
  induction c as [|c IHc]; intros b Hb; [reflexivity|].
  cbn [seq omap list_omap].
  destruct (lookup_lt_is_Some_2 l (pos b) (Hb b ltac:(lia))) as [a Ha].
  rewrite Ha. cbn [length]. f_equal. apply IHc.
  intros j Hj. apply Hb. lia.
Qed.

Lemma gather_lookup (l : list A) (pos : nat -> nat) (cnt : nat) :
  (forall j, (j < cnt)%nat -> (pos j < length l)%nat) ->
  forall i, omap (fun j => l !! pos j) (seq 0 cnt) !! i =
            if (i <? cnt)%nat then l !! pos i else None.
Proof.
  induction cnt as [|cnt IH]; intros Hin i.
  - reflexivity.
  - rewrite seq_S, omap_app. cbn [omap list_omap Nat.add].
    assert (Hlen : length (omap (fun j => l !! pos j) (seq 0 cnt)) = cnt).
    { apply gather_length. intros j Hj. apply Hin. lia. }
    destruct (Nat.ltb_spec i (S cnt)) as [Hi | Hi].
    + destruct (Nat.eq_dec i cnt) as [-> | Hne].
      * rewrite lookup_app_r by lia. rewrite Hlen, Nat.sub_diag.
        destruct (lookup_lt_is_Some_2 l (pos cnt) (Hin cnt ltac:(lia)))
          as [a Ha].
        rewrite Ha. reflexivity.
      * rewrite lookup_app_l by lia.
        rewrite IH by (intros j Hj; apply Hin; lia).
        destruct (Nat.ltb_spec i cnt); [reflexivity | lia].
    + rewrite lookup_ge_None_2; [reflexivity|].
      rewrite length_app, Hlen.
      destruct (l !! pos cnt); cbn [length]; lia.
Qed.

End RowSelection.

Section Strides.

Context {A : Type}.

Lemma omap_map {X B C} (f : B -> option C) (g : X -> B) (l : list X) :
  omap f (map g l) = omap (fun a => f (g a)) l.
Proof.
  induction l as [|a l IH]; [reflexivity|].
  cbn [map omap list_omap]. rewrite IH. reflexivity.
Qed.

(** The slice [::step] has one item for every multiple of [|step|] below
    the length. *)
Lemma slice_count_lt (n : nat) (step : Z) (j : nat) :
  step <> 0%Z ->
  (j < slice_count n step)%nat <->
  (Z.of_nat j * Z.abs step < Z.of_nat n)%Z.
Proof.
  intros Hstep. unfold slice_count.
  set (a := Z.abs step). assert (Ha : (0 < a)%Z) by (unfold a; lia).
  set (m := (Z.of_nat n + a - 1)%Z).
  pose proof (Z.div_mod m a ltac:(lia)) as Hdm.
  pose proof (Z.mod_pos_bound m a Ha) as Hmod.
  assert (Hq : (0 <= m / a)%Z) by (apply Z.div_pos; unfold m; lia).
  split; intros Hj.
  - assert (Hj' : (Z.of_nat j + 1 <= m / a)%Z) by lia. unfold m in *. nia.
  - assert (Hj' : (Z.of_nat j < m / a)%Z); [|lia].
    destruct (Z.lt_ge_cases (Z.of_nat j) (m / a)) as [Hlt | Hge];
      [exact Hlt | exfalso; unfold m in *; nia].
Qed.

(** [l[::step]] is every [step]-th item of [l], walked backwards for a
    negative step; a zero step is refused. *)
Lemma iloc_stride_every_step (l : list A) (step : Z) :
  step <> 0%Z -> iloc_stride l step = Ok (every_step step l).
Proof.
  intros Hstep. unfold iloc_stride.
  destruct (Z.eqb_spec step 0) as [E | _]; [contradiction|].
  f_equal. unfold slice_positions. rewrite omap_map.
  apply list_eq. intros i.
  rewrite (gather_lookup l
             (fun j => Z.to_nat (slice_first (length l) step
                                 + Z.of_nat j * step))).
  - unfold every_step, slice_first.
    destruct (Z.ltb_spec 0 step) as [Hpos | Hneg].
    + rewrite every_nth_lookup by lia.
      replace (Z.to_nat (0 + Z.of_nat i * step)) with (i * Z.to_nat step)%nat
        by nia.
      destruct (Nat.ltb_spec i (slice_count (length l) step)) as [Hi | Hi];
        [reflexivity|].
      symmetry. apply lookup_ge_None_2.
      assert (Hn : ~ (i < slice_count (length l) step)%nat) by lia.
      rewrite slice_count_lt in Hn by exact Hstep. nia.
    + rewrite every_nth_lookup by lia.
      destruct (Nat.ltb_spec i (slice_count (length l) step)) as [Hi | Hi].
      * rewrite slice_count_lt in Hi by exact Hstep.
        rewrite reverse_lookup by nia. f_equal. nia.
      * symmetry. apply lookup_ge_None_2. rewrite length_reverse.
        assert (Hn : ~ (i < slice_count (length l) step)%nat) by lia.
        rewrite slice_count_lt in Hn by exact Hstep. nia.
  - intros j Hj. rewrite slice_count_lt in Hj by exact Hstep.
    unfold slice_first. destruct (Z.ltb_spec 0 step); nia.
Qed.

Lemma iloc_stride_zero (l : list A) :
  iloc_stride l 0 = Raise (ValueError "slice step cannot be zero").
Proof. reflexivity. Qed.

Lemma every_step_elem (step : Z) (l : list A) a :
  In a (every_step step l) -> In a l.
Proof.
  unfold every_step, every_nth. destruct (0 <? step)%Z; intros Hin.
  - eapply stride_aux_elem. exact Hin.
  - apply stride_aux_elem in Hin. apply list_elem_of_In in Hin.
    rewrite elem_of_reverse in Hin. apply list_elem_of_In. exact Hin.
Qed.

End Strides.

(** ** The index query *)

Section IndexQuery.

Variable env : Env.

(** Against a query interval [(qs, qe]], pandas' overlap test is the pair
    of comparisons of [time_overlaps]. *)
Lemma interval_overlaps_query (c : Closed) (r : Row) (qs qe : Z) :
  interval_overlaps (row_interval c r) (mkInterval qs qe closed_right) =
  time_overlaps c (datetime r) qs qe.
Proof.
  unfold interval_overlaps, time_overlaps, row_interval.
  cbn [i_left i_right i_closed closed_on_left closed_on_right].
  rewrite andb_true_r. destruct (closed_on_left c); reflexivity.
Qed.


(** For ordered corners the rectangle test of [cx] is [meets_rectangle]. *)
Lemma intersects_shapely_box (g : Box) (x0 x1 y0 y1 : Q) :
  (x0 <= x1)%Q -> (y0 <= y1)%Q ->
  intersects g (shapely_box x0 y0 x1 y1) = meets_rectangle g x0 x1 y0 y1.
Proof.
  intros Hx Hy. unfold intersects, shapely_box, meets_rectangle.
  unfold Qmin_bool, Qmax_bool. cbn [minx miny maxx maxy].
  apply Qle_bool_iff in Hx, Hy. rewrite Hx, Hy. reflexivity.
Qed.

(** [meets_rectangle] holds exactly when the box of the record and the
    rectangle of the query share a point. *)
Lemma meets_rectangle_point (g : Box) (x0 x1 y0 y1 : Q) :
  (minx g <= maxx g)%Q -> (miny g <= maxy g)%Q ->
  (x0 <= x1)%Q -> (y0 <= y1)%Q ->
  meets_rectangle g x0 x1 y0 y1 = true <->
  exists px py : Q,
    (minx g <= px /\ px <= maxx g /\ miny g <= py /\ py <= maxy g /\
     x0 <= px /\ px <= x1 /\ y0 <= py /\ py <= y1)%Q.
Proof.
  intros Hgx Hgy Hx Hy. unfold meets_rectangle.
  rewrite !andb_true_iff, !Qle_bool_iff. split.
  - intros [[[H1 H2] H3] H4].
    exists (if Qle_bool (minx g) x0 then x0 else minx g),
           (if Qle_bool (miny g) y0 then y0 else miny g).
    destruct (Qle_bool (minx g) x0) eqn:Ex;
      destruct (Qle_bool (miny g) y0) eqn:Ey;
      rewrite ?Qle_bool_iff in *;
      try (assert (Ex' : ~ (minx g <= x0)%Q)
             by (rewrite <- Qle_bool_iff; congruence));
      try (assert (Ey' : ~ (miny g <= y0)%Q)
             by (rewrite <- Qle_bool_iff; congruence));
      repeat split; lra.
  - intros (px & py & H). repeat split; lra.
Qed.

Lemma select_index_run (df : GeoDataFrame) (query : GeoSlice) x y t :
  _disambiguate_slice env df query = (x, y, t) ->
  (start t <= stop t)%Z -> step t <> 0%Z ->
  select_index env df query =
  Ok (cx (every_step (step t)
            (List.filter
               (fun r => time_overlaps (index_closed df) (datetime r)
                           (start t) (stop t))
               (rows df)))
         (start x) (stop x) (start y) (stop y)).
Proof.
  intros Hq Ht Hstep. unfold select_index. rewrite Hq.
  unfold pd_Interval.
  destruct (Z.ltb_spec (stop t) (start t)) as [Hbad | _]; [lia|].
  cbn [bind]. unfold IntervalIndex_overlaps. rewrite iloc_mask_map.
  rewrite (filter_ext _ _ (fun r => interval_overlaps_query _ r _ _)).
  rewrite (iloc_stride_every_step _ _ Hstep). reflexivity.
Qed.

Lemma cx_filter (l : list Row) (x0 x1 y0 y1 : Q) :
  (x0 <= x1)%Q -> (y0 <= y1)%Q ->
  cx l x0 x1 y0 y1 =
  List.filter (fun r => meets_rectangle (geometry r) x0 x1 y0 y1) l.
Proof.
  intros Hx Hy. unfold cx. rewrite iloc_mask_map.
  apply filter_ext. intros r. apply intersects_shapely_box; assumption.
Qed.


End IndexQuery.



(** ** Queries that find nothing *)

Section NotFound.

Variable env : Env.




End NotFound.


(** ** Class validation and the ordinal map *)

Section Ordinals.

Lemma Z_in_iff (k : Z) (l : list Z) : Z_in k l = true <-> In k l.
Proof.
  unfold Z_in. rewrite existsb_exists. split.
  - intros (a & Ha & E). apply Z.eqb_eq in E. subst a. exact Ha.
  - intros Hk. exists k. split; [exact Hk | apply Z.eqb_refl].
Qed.

Lemma classes_subset_iff (classes : list Z) :
  classes_subset classes = true <->
  (forall k, In k classes -> In k cmap_keys).
Proof.
  unfold classes_subset. rewrite forallb_forall.
  split; intros Hall k Hk; [apply Z_in_iff | apply Z_in_iff]; auto.
Qed.

(** Every known class id indexes the table and has a colour. *)
Lemma cmap_key_facts (k : Z) :
  In k cmap_keys ->
  (0 <= k < 37)%Z /\ exists c, cmap_getitem k = Ok c.
Proof.
  intros Hk. cbn in Hk.
  repeat (destruct Hk as [<- | Hk];
          [split; [lia | eexists; reflexivity]|]).
  destruct Hk.
Qed.

Lemma table_length : Z.to_nat (py_max cmap_keys + 1) = 37%nat.
Proof. reflexivity. Qed.

Lemma tensor_position_in (n : nat) (i : Z) :
  (0 <= i < Z.of_nat n)%Z -> tensor_position n i = Ok (Z.to_nat i).
Proof.
  intros Hi. unfold tensor_position.
  destruct (Z.leb_spec 0 i); [|lia].
  destruct (Z.ltb_spec i (Z.of_nat n)); [|lia]. reflexivity.
Qed.

Lemma tensor_position_above (n : nat) (i : Z) :
  (Z.of_nat n <= i)%Z ->
  tensor_position n i = Raise (IndexError "index out of range").
Proof.
  intros Hi. unfold tensor_position.
  destruct (Z.ltb_spec i (Z.of_nat n)); [lia|]. rewrite andb_false_r.
  destruct (Z.ltb_spec i 0); [lia|]. rewrite andb_false_r. reflexivity.
Qed.

Lemma last_position_None (k : Z) (l : list Z) :
  last_position k l = None <-> ~ In k l.
Proof.
  induction l as [|a l IH]; cbn [last_position In]; [tauto|].
  destruct (last_position k l) as [j|].
  - split; [discriminate|]. intros Hn. exfalso.
    assert (Hin : In k l).
    { destruct (in_dec Z.eq_dec k l) as [Hin | Hout]; [exact Hin|].
      apply IH in Hout. discriminate. }
    tauto.
  - destruct (Z.eqb_spec a k) as [-> | Hne].
    + split; [discriminate | tauto].
    + split; [|reflexivity]. intros _ [E | Hin]; [contradiction|].
      apply (proj1 IH eq_refl). exact Hin.
Qed.

Lemma last_position_Some (k : Z) (l : list Z) j :
  last_position k l = Some j ->
  l !! j = Some k /\ (forall j', (j < j')%nat -> l !! j' <> Some k).
Proof.
  revert j. induction l as [|a l IH]; intros j; cbn [last_position];
    [discriminate|].
  destruct (last_position k l) as [j0|] eqn:E.
  - intros [= <-]. destruct (IH j0 eq_refl) as [Hat Hafter].
    split; [exact Hat|]. intros j' Hj'. destruct j' as [|j']; [lia|].
    cbn [lookup list_lookup]. apply Hafter. lia.
  - destruct (Z.eqb_spec a k) as [-> | Hne]; [|discriminate].
    intros [= <-]. split; [reflexivity|].
    intros j' Hj' Hat. destruct j' as [|j']; [lia|].
    cbn [lookup list_lookup] in Hat.
    apply last_position_None in E. apply E.
    apply list_elem_of_In. eapply list_elem_of_lookup_2. exact Hat.
Qed.


End Ordinals.

Section OrdinalMap.

Lemma repeat_lookup {A} (a : A) (n i : nat) :
  (i < n)%nat -> repeat a n !! i = Some a.
Proof.
  revert i. induction n as [|n IH]; intros i Hi; [lia|].
  destruct i as [|i]; [reflexivity|]. cbn [repeat lookup list_lookup].
  apply IH. lia.
Qed.

Lemma check_classes_ok (classes : list Z) :
  check_classes classes = Ok tt <->
  (forall k, In k classes -> In k cmap_keys) /\ In 0%Z classes.
Proof.
  unfold check_classes, py_assert. rewrite <- classes_subset_iff, <- Z_in_iff.
  destruct (classes_subset classes); cbn [bind];
    destruct (Z_in 0 classes); split; intros Hc;
    try discriminate; try (destruct Hc; discriminate); auto.
Qed.

Lemma check_classes_raises (classes : list Z) :
  ~ ((forall k, In k classes -> In k cmap_keys) /\ In 0%Z classes) ->
  exists msg, check_classes classes = Raise (AssertionError msg).
Proof.
  intros Hn. rewrite <- check_classes_ok in Hn.
  unfold check_classes, py_assert in *.
  destruct (classes_subset classes); cbn [bind] in *;
    [|eexists; reflexivity].
  destruct (Z_in 0 classes); [|eexists; reflexivity].
  contradiction.
Qed.

(** The loop of lines 171-173 started at ordinal [v]: it cannot fail on
    known class ids, it keeps the sizes of both tables, it leaves the entry
    of every id outside [classes] alone, and the entry of an id of [classes]
    ends up holding the ordinal of the last occurrence of the id. *)
Lemma fill_ordinals_spec (classes : list Z) :
  forall v omap ocmap,
    (forall k, In k classes -> In k cmap_keys) ->
    length omap = 37%nat ->
    (v + length classes <= length ocmap)%nat ->
    exists omap' ocmap',
      fill_ordinals v classes omap ocmap = Ok (omap', ocmap') /\
      length omap' = 37%nat /\
      length ocmap' = length ocmap /\
      (forall k j, last_position k classes = Some j ->
         omap' !! Z.to_nat k = Some (Z.of_nat (v + j))) /\
      (forall i, ~ In (Z.of_nat i) classes -> omap' !! i = omap !! i).
Proof.
  induction classes as [|k rest IH]; intros v omap ocmap Hkeys Hlen Hroom.
  - exists omap, ocmap. cbn [fill_ordinals last_position].
    repeat split; try assumption; try reflexivity. discriminate.
  - cbn [length] in Hroom.
    destruct (cmap_key_facts k (Hkeys k (or_introl eq_refl)))
      as [Hk [c Hc]].
    cbn [fill_ordinals]. unfold tensor_setitem.
    rewrite tensor_position_in by lia. cbn [bind]. rewrite Hc. cbn [bind].
    rewrite tensor_position_in by lia. cbn [bind].
    rewrite Nat2Z.id.
    destruct (IH (S v) (<[Z.to_nat k := Z.of_nat v]> omap)
                (<[v := c]> ocmap))
      as (omap' & ocmap' & Hrun & Hlen' & Hlenc & Hlast & Hrest).
    { intros k' Hk'. apply Hkeys. right. exact Hk'. }
    { rewrite length_insert. exact Hlen. }
    { rewrite length_insert. lia. }
    exists omap', ocmap'. split; [exact Hrun|]. split; [exact Hlen'|].
    split; [rewrite Hlenc; apply length_insert|]. split.
    + intros k' j. cbn [last_position].
      destruct (last_position k' rest) as [j0|] eqn:E.
      * intros [= <-]. rewrite (Hlast k' j0 E). f_equal. lia.
      * destruct (Z.eqb_spec k k') as [<- | Hne]; [|discriminate].
        intros [= <-]. apply last_position_None in E.
        rewrite Hrest by (rewrite Z2Nat.id by lia; exact E).
        rewrite list_lookup_insert_eq by lia. f_equal. lia.
    + intros i Hi. rewrite Hrest by (intros Hin; apply Hi; right; exact Hin).
      apply list_lookup_insert_ne. intros E. apply Hi. left. lia.
Qed.

Lemma build_ordinals_spec (classes : list Z) :
  (forall k, In k classes -> In k cmap_keys) ->
  exists omap ocmap,
    build_ordinals classes = Ok (omap, ocmap) /\
    length omap = 37%nat /\
    length ocmap = length classes /\
    (forall k j, last_position k classes = Some j ->
       omap !! Z.to_nat k = Some (Z.of_nat j)) /\
    (forall k, (0 <= k <= 36)%Z -> ~ In k classes ->
       omap !! Z.to_nat k = Some 0%Z).
Proof.
  intros Hkeys. unfold build_ordinals. rewrite table_length.
  destruct (fill_ordinals_spec classes 0 (repeat 0%Z 37)
              (repeat (0, 0, 0, 0)%Z (length classes)) Hkeys)
    as (omap & ocmap & Hrun & Hlen & Hlenc & Hlast & Hrest).
  { apply repeat_length. }
  { rewrite repeat_length. lia. }
  exists omap, ocmap. split; [exact Hrun|]. split; [exact Hlen|].
  split; [rewrite Hlenc; apply repeat_length|]. split.
  - intros k j Hj. rewrite (Hlast k j Hj). reflexivity.
  - intros k Hk Hout.
    rewrite Hrest by (rewrite Z2Nat.id by lia; exact Hout).
    apply repeat_lookup. lia.
Qed.


End OrdinalMap.



(** ** Construction *)

Section Construction.

Variable env : Env.

Lemma init_inv p crs_arg classes bands_arg tf dl ds eff :
  AgriFieldNet_init env p crs_arg classes bands_arg tf dl = (Ok ds, eff) ->
  check_classes classes = Ok tt /\
  paths ds = p /\
  exists ords, build_ordinals classes = Ok ords /\
               ordinal_map ds = fst ords.
Proof.
  unfold AgriFieldNet_init.
  destruct (check_classes classes) as [[]|e]; [|discriminate].
  destruct bands_arg as [|band0 rest]; [discriminate|].
  destruct (_verify env p (filename_glob band0) dl) as [[[]|e] eff'];
    [|discriminate].
  destruct (raster_init env p crs_arg (band0 :: rest)) as [made|e];
    [|discriminate].
  cbn [bind].
  destruct (build_ordinals classes) as [ords|e]; [|discriminate].
  cbn [bind]. intros [= <- <-]. cbn [paths ordinal_map].
  split; [reflexivity|]. split; [reflexivity|].
  exists ords. split; reflexivity.
Qed.

(** C6: a class list with an id outside the known class set, or without
    the background id [0], makes [__init__] raise [AssertionError] before it
    looks at any file; any other class list passes the check, and
    construction then succeeds whenever the files are found and the index
    is built. *)
Theorem init_validates_classes p crs_arg classes bands_arg tf dl :
  ((exists k, In k classes /\ ~ In k cmap_keys) \/ ~ In 0%Z classes ->
   exists msg,
     AgriFieldNet_init env p crs_arg classes bands_arg tf dl =
     (Raise (AssertionError msg), [])) /\
  ((forall k, In k classes -> In k cmap_keys) /\ In 0%Z classes ->
   check_classes classes = Ok tt /\
   forall band0 rest eff made,
     bands_arg = band0 :: rest ->
     _verify env p (filename_glob band0) dl = (Ok tt, eff) ->
     raster_init env p crs_arg bands_arg = Ok made ->
     exists ds,
       AgriFieldNet_init env p crs_arg classes bands_arg tf dl =
       (Ok ds, eff) /\
       paths ds = p /\ index ds = fst made /\
       length (ordinal_map ds) = 37%nat).
Proof.
  split.
  - intros Hbad.
    destruct (check_classes_raises classes) as [msg Hmsg].
    { intros [Hkeys H0]. destruct Hbad as [(k & Hk & Hout) | Hno0].
      - apply Hout, Hkeys, Hk.
      - contradiction. }
    exists msg. unfold AgriFieldNet_init. rewrite Hmsg. reflexivity.
  - intros Hgood. pose proof (proj2 (check_classes_ok classes) Hgood) as Hok.
    split; [exact Hok|].
    intros band0 rest eff made -> Hverify Hmade.
    destruct (build_ordinals_spec classes (proj1 Hgood))
      as (omap & ocmap & Hrun & Hlen & _).
    eexists. unfold AgriFieldNet_init.
    rewrite Hok, Hverify, Hmade. cbn [bind]. rewrite Hrun. cbn [bind fst snd].
    split; [reflexivity|]. cbn [paths index ordinal_map].
    repeat split; try reflexivity. exact Hlen.
Qed.

End Construction.

Lemma init_validates_classes_witness :
  ((exists k, In k [1; 2]%Z /\ ~ In k cmap_keys) \/ ~ In 0%Z [1; 2]%Z) /\
  (exists msg,
     AgriFieldNet_init (demo_env (demo_frame closed_both) [])
       (OnePath "root") None [1; 2]%Z ["B01"%string] None false =
     (Raise (AssertionError msg), [])) /\
  ((forall k, In k [0; 1]%Z -> In k cmap_keys) /\ In 0%Z [0; 1]%Z) /\
  check_classes [0; 1]%Z = Ok tt /\
  exists ds,
    AgriFieldNet_init (demo_env (demo_frame closed_both) [])
      (OnePath "root") None [0; 1]%Z ["B01"%string] None false =
    (Ok ds, []) /\
    length (ordinal_map ds) = 37%nat.
Proof.
  assert (Hbad : (exists k, In k [1; 2]%Z /\ ~ In k cmap_keys) \/
                 ~ In 0%Z [1; 2]%Z).
  { right. cbn. lia. }
  assert (Hgood : (forall k, In k [0; 1]%Z -> In k cmap_keys) /\
                  In 0%Z [0; 1]%Z).
  { split; [|left; reflexivity]. intros k Hk. cbn in Hk. cbn. lia. }
  split; [exact Hbad|]. split.
  - exact (proj1 (init_validates_classes
                    (demo_env (demo_frame closed_both) [])
                    (OnePath "root") None [1; 2]%Z ["B01"%string] None false)
             Hbad).
  - split; [exact Hgood|].
    destruct (proj2 (init_validates_classes
                       (demo_env (demo_frame closed_both) [])
                       (OnePath "root") None [0; 1]%Z ["B01"%string] None
                       false) Hgood) as [Hok Hbuild].
    split; [exact Hok|].
    destruct (Hbuild "B01"%string [] []
                (demo_frame closed_both, "EPSG:32644"%string)
                eq_refl eq_refl eq_refl) as (ds & Hrun & _ & _ & Hlen).
    exists ds. split; [exact Hrun | exact Hlen].
Defined.

(** ** Remapping the labels *)

Section Remapping.

Variable env : Env.

Lemma tensor_getitem_cases {A} (t : list A) (i : Z) :
  (exists a, tensor_getitem t i = Ok a) \/
  tensor_getitem t i = Raise (IndexError "index out of range").
Proof.
  unfold tensor_getitem, tensor_position.
  destruct ((0 <=? i)%Z && (i <? Z.of_nat (length t))%Z); cbn [bind].
  - destruct (t !! Z.to_nat i); [left; eexists; reflexivity | right; reflexivity].
  - destruct ((- Z.of_nat (length t) <=? i)%Z && (i <? 0)%Z); cbn [bind].
    + destruct (t !! Z.to_nat (Z.of_nat (length t) + i));
        [left; eexists; reflexivity | right; reflexivity].
    + right. reflexivity.
Qed.

Lemma tensor_getitem_in {A} (t : list A) (i : Z) :
  (0 <= i < Z.of_nat (length t))%Z -> exists a, tensor_getitem t i = Ok a.
Proof.
  intros Hi. unfold tensor_getitem. rewrite tensor_position_in by exact Hi.
  cbn [bind].
  destruct (lookup_lt_is_Some_2 t (Z.to_nat i) ltac:(lia)) as [a Ha].
  rewrite Ha. exists a. reflexivity.
Qed.

Lemma tensor_getitem_above {A} (t : list A) (i : Z) :
  (Z.of_nat (length t) <= i)%Z ->
  tensor_getitem t i = Raise (IndexError "index out of range").
Proof.
  intros Hi. unfold tensor_getitem.
  rewrite tensor_position_above by exact Hi. reflexivity.
Qed.

(** One index out of range makes the whole lookup raise. *)
Lemma tensor_index_raises {A} (t : list A) (idx : list Z) (i : Z) :
  In i idx ->
  tensor_getitem t i = Raise (IndexError "index out of range") ->
  tensor_index t idx = Raise (IndexError "index out of range").
Proof.
  intros Hin Hbad. induction idx as [|j idx IH]; [destruct Hin|].
  cbn [tensor_index].
  destruct (tensor_getitem_cases t j) as [[a Ha] | Hj].
  - rewrite Ha. cbn [bind]. destruct Hin as [-> | Hin]; [congruence|].
    rewrite (IH Hin). reflexivity.
  - rewrite Hj. reflexivity.
Qed.

(** Every index in range makes the lookup succeed. *)
Lemma tensor_index_in {A} (t : list A) (idx : list Z) :
  (forall i, In i idx -> (0 <= i < Z.of_nat (length t))%Z) ->
  exists out, tensor_index t idx = Ok out /\ length out = length idx.
Proof.
  induction idx as [|j idx IH]; intros Hall.
  - exists []. split; reflexivity.
  - destruct (tensor_getitem_in t j (Hall j (or_introl eq_refl))) as [a Ha].
    destruct IH as (out & Hout & Hlen).
    { intros i Hi. apply Hall. right. exact Hi. }
    exists (a :: out). cbn [tensor_index]. rewrite Ha. cbn [bind].
    rewrite Hout. cbn [bind length]. split; [reflexivity | lia].
Qed.

(** C9: whatever classes were requested, the table of a constructed
    dataset has [max(known class id) + 1 = 37] entries, so the lookup of
    [__getitem__] is defined for every raw value in [[0, 36]], also for values
    that were not requested; a mask with a pixel above [36] makes the lookup
    run out of bounds, and the query raises instead of returning a sample. *)
Theorem ordinal_map_covers_known_ids
    p crs_arg classes bands_arg tf dl ds eff :
  AgriFieldNet_init env p crs_arg classes bands_arg tf dl = (Ok ds, eff) ->
  length (ordinal_map ds) = Z.to_nat (py_max cmap_keys + 1) /\
  length (ordinal_map ds) = 37%nat /\
  (forall v, (0 <= v <= 36)%Z ->
     exists o, tensor_getitem (ordinal_map ds) v = Ok o) /\
  (forall v, (0 <= v <= 36)%Z -> ~ In v classes ->
     tensor_getitem (ordinal_map ds) v = Ok 0%Z) /\
  (forall mask, (forall v, In v mask -> (0 <= v <= 36)%Z) ->
     exists out, tensor_index (ordinal_map ds) mask = Ok out) /\
  (forall v, (36 < v)%Z ->
     tensor_getitem (ordinal_map ds) v =
     Raise (IndexError "index out of range")) /\
  (forall query root pixel,
     paths ds = OnePath root ->
     In pixel (_merge_files env (mask_filepaths env root) query) ->
     (36 < py_int pixel)%Z ->
     (exists e, fst (AgriFieldNet_getitem env ds query) = Raise e) /\
     (forall r rs, select_index env (index ds) query = Ok (r :: rs) ->
        fst (AgriFieldNet_getitem env ds query) =
        Raise (IndexError "index out of range"))).
Proof.
  intros Hinit.
  destruct (init_inv env _ _ _ _ _ _ _ _ Hinit)
    as (Hcheck & _ & ords & Hords & Hmap).
  apply check_classes_ok in Hcheck as [Hkeys _].
  destruct (build_ordinals_spec classes Hkeys)
    as (omap & ocmap & Hrun & Hlen & _ & _ & Hrest).
  rewrite Hrun in Hords. injection Hords as <-. cbn [fst] in Hmap.
  rewrite Hmap. clear Hmap.
  split; [exact Hlen|]. split; [exact Hlen|]. split; [|split; [|split; [|split]]].
  - intros v Hv. apply tensor_getitem_in. rewrite Hlen. lia.
  - intros v Hv Hout. unfold tensor_getitem.
    rewrite tensor_position_in by (rewrite Hlen; lia). cbn [bind].
    rewrite (Hrest v Hv Hout). reflexivity.
  - intros mask Hmask.
    destruct (tensor_index_in omap mask) as (out & Hout & _).
    { intros i Hi. rewrite Hlen. specialize (Hmask i Hi). lia. }
    exists out. exact Hout.
  - intros v Hv. apply tensor_getitem_above. rewrite Hlen. lia.
  - intros query root pixel Hp Hin Hbig.
    assert (Hbad : tensor_index (ordinal_map ds)
                     (map py_int
                        (_merge_files env (mask_filepaths env root) query)) =
                   Raise (IndexError "index out of range")).
    { apply (tensor_index_raises _ _ (py_int pixel)).
      - apply in_map. exact Hin.
      - apply tensor_getitem_above.
        destruct (init_inv env _ _ _ _ _ _ _ _ Hinit)
          as (_ & _ & ords' & Hords' & Hmap').
        rewrite Hrun in Hords'. injection Hords' as <-.
        rewrite Hmap'. cbn [fst]. rewrite Hlen. lia. }
    unfold AgriFieldNet_getitem. rewrite Hp.
    destruct (select_index env (index ds) query) as [[|r rs]|e].
    + split; [eexists; reflexivity | discriminate].
    + rewrite Hbad. cbn [fst].
      split; [eexists; reflexivity | reflexivity].
    + split; [eexists; reflexivity | discriminate].
Qed.

End Remapping.

Lemma ordinal_map_covers_known_ids_witness :
  AgriFieldNet_init (demo_env (demo_frame closed_both) demo_labels)
    (OnePath "root") None [0; 1]%Z ["B01"%string] None false =
  (Ok demo_built, []) /\
  length (ordinal_map demo_built) = 37%nat /\
  tensor_getitem (ordinal_map demo_built) 36 = Ok 0%Z /\
  fst (AgriFieldNet_getitem (demo_env (demo_frame closed_both) demo_labels)
         demo_built (whole 0 10 0 10 0 100)) =
  Raise (IndexError "index out of range").
Proof.
  split; [reflexivity|].
  destruct (ordinal_map_covers_known_ids
              (demo_env (demo_frame closed_both) demo_labels)
              (OnePath "root") None [0; 1]%Z ["B01"%string] None false
              demo_built [] eq_refl)
    as (_ & Hlen & _ & Hzero & _ & _ & Hquery).
  split; [exact Hlen|]. split.
  - apply Hzero; [lia | cbn; lia].
  - destruct (Hquery (whole 0 10 0 10 0 100) "root"%string 40%Q eq_refl)
      as [_ Hraise].
    + right. left. reflexivity.
    + reflexivity.
    + apply (Hraise (demo_row 5 10) []). reflexivity.
Defined.

(** * Further properties of the sampler utilities *)

Section SamplerExtras.
Local Open Scope Q_scope.

Context {G : Type} `{Generator G}.

(** A resolution with a zero component makes [get_random_bounding_box]
    raise [ZeroDivisionError] on lines 68-69, before line 72 draws: every
    generator, the one passed included, keeps its state. *)
Theorem random_box_raises_before_drawing
    xmin ymin xmax ymax size res generator (st : Store) :
  fst (_to_tuple res) == 0 \/ snd (_to_tuple res) == 0 ->
  get_random_bounding_box (xmin, ymin, xmax, ymax) size res generator st =
  (Raise ZeroDivisionError, st).
Proof.
  intros Hzero. unfold get_random_bounding_box.
  destruct (Qeq_bool (fst (_to_tuple res)) 0) eqn:Ex.
  - apply Qeq_bool_iff in Ex. rewrite (py_div_zero _ _ Ex). reflexivity.
  - apply Qeq_bool_neq in Ex. rewrite (py_div_ok _ _ Ex).
    destruct Hzero as [Hx | Hy]; [contradiction|].
    rewrite (py_div_zero _ _ Hy). reflexivity.
Qed.

(** Stores that agree on the generator a call draws from give the same
    result. *)
Lemma get_random_bounding_box_agree
    bounds size res generator (st1 st2 : Store) :
  st1 (resolve generator) = st2 (resolve generator) ->
  fst (get_random_bounding_box bounds size res generator st1) =
  fst (get_random_bounding_box bounds size res generator st2).
Proof.
  intros Hsame. destruct bounds as [[[xmin ymin] xmax] ymax].
  unfold get_random_bounding_box.
  destruct (py_div _ (fst (_to_tuple res))) as [width|e]; [|reflexivity].
  destruct (py_div _ (snd (_to_tuple res))) as [height|e]; [|reflexivity].
  unfold torch_rand. rewrite <- Hsame.
  destruct (rand (st1 (resolve generator))) as [a g1].
  rewrite !store_set_same.
  destruct (rand g1) as [b g2]. reflexivity.
Qed.

(** A successful call takes exactly two numbers from the generator it was
    given (the default one when none was given), the first for the x offset
    and the second for the y offset, so a call that follows starts from the
    third. *)
Theorem random_box_consumes_two_draws
    xmin ymin xmax ymax size res generator (st : Store) :
  ~ fst (_to_tuple res) == 0 -> ~ snd (_to_tuple res) == 0 ->
  let st' := snd (get_random_bounding_box (xmin, ymin, xmax, ymax) size res
                    generator st) in
  st' (resolve generator) =
    snd (rand (snd (rand (st (resolve generator))))) /\
  draw1 generator st' = rand (snd (rand (snd (rand (st (resolve generator)))))) /\
  (forall bounds2 size2 res2,
     fst (get_random_bounding_box bounds2 size2 res2 generator st') =
     fst (get_random_bounding_box bounds2 size2 res2 generator
            (fun _ => snd (draw2 generator st)))).
Proof.
  intros Hx Hy st'. subst st'.
  rewrite (get_random_bounding_box_run _ _ _ _ _ _ _ _ Hx Hy). cbn [snd].
  assert (Hst : store_set
                  (store_set st (resolve generator) (snd (draw1 generator st)))
                  (resolve generator) (snd (draw2 generator st))
                  (resolve generator) = snd (draw2 generator st))
    by apply store_set_same.
  split; [exact Hst|]. split.
  - unfold draw1 at 1. rewrite Hst. reflexivity.
  - intros bounds2 size2 res2.
    apply get_random_bounding_box_agree. rewrite Hst. reflexivity.
Qed.



End SamplerExtras.

Section TileExtras.
Local Open Scope Q_scope.







End TileExtras.

Section SamplerExtrasInstances.
Local Open Scope Q_scope.

Lemma random_box_raises_before_drawing_witness :
  (fst (_to_tuple (Pair 2 0)) == 0 \/ snd (_to_tuple (Pair 2 0)) == 0) /\
  get_random_bounding_box (0, 0, 10, 10) (Scalar 5) (Pair 2 0)
    (Some 3%nat) (fun _ => 7%Z) =
  (Raise ZeroDivisionError, fun _ => 7%Z).
Proof.
  assert (Hz : fst (_to_tuple (Pair 2 0)) == 0 \/
               snd (_to_tuple (Pair 2 0)) == 0) by (right; reflexivity).
  split; [exact Hz|].
  exact (random_box_raises_before_drawing (G := Z) 0 0 10 10 (Scalar 5)
           (Pair 2 0) (Some 3%nat) (fun _ => 7%Z) Hz).
Defined.

Lemma random_box_consumes_two_draws_witness :
  ~ 2 == 0 /\ ~ 2 == 0 /\
  snd (get_random_bounding_box (0, 0, 10, 10) (Scalar 4) (Scalar 2)
         None (fun _ => 7%Z)) (resolve None) =
  lcg_next (lcg_next 7).
Proof.
  assert (Hr : ~ 2 == 0) by (intros E; discriminate E).
  split; [exact Hr|]. split; [exact Hr|].
  exact (proj1 (random_box_consumes_two_draws (G := Z) 0 0 10 10 (Scalar 4)
                  (Scalar 2) None (fun _ => 7%Z) Hr Hr)).
Defined.


End SamplerExtrasInstances.

(** * Further properties of the index query *)

Section QueryExtras.

Variable env : Env.

Lemma filter_sublist {A} (f : A -> bool) (l : list A) :
  sublist (List.filter f l) l.
Proof.
  induction l as [|a l IH]; [constructor|]. cbn [List.filter].
  destruct (f a); [apply sublist_skip | apply sublist_cons]; exact IH.
Qed.

Lemma stride_aux_sublist {A} (gap : nat) (l : list A) :
  forall skip, sublist (stride_aux gap skip l) l.
Proof.
  induction l as [|a l IH]; intros skip; [constructor|].
  destruct skip; cbn [stride_aux];
    [apply sublist_skip | apply sublist_cons]; apply IH.
Qed.



(** A reversed time range is refused by [pd.Interval] and a zero time step
    by the slice [::step]: [__getitem__] raises [ValueError] before it reads
    any file. *)
Theorem getitem_refuses_malformed_time
    (ds : AgriFieldNet) (query : GeoSlice) root x y t :
  paths ds = OnePath root ->
  _disambiguate_slice env (index ds) query = (x, y, t) ->
  (stop t < start t)%Z \/ step t = 0%Z ->
  exists msg,
    AgriFieldNet_getitem env ds query = (Raise (ValueError msg), []).
Proof.
  intros Hp Hq Hbad.
  assert (Hsel : exists msg,
            select_index env (index ds) query = Raise (ValueError msg)).
  { unfold select_index. rewrite Hq. unfold pd_Interval.
    destruct (Z.ltb_spec (stop t) (start t)) as [Hrev | Hord].
    - eexists. reflexivity.
    - destruct Hbad as [Hrev | Hzero]; [lia|]. cbn [bind].
      rewrite Hzero. eexists. reflexivity. }
  destruct Hsel as [msg Hsel]. exists msg.
  unfold AgriFieldNet_getitem. rewrite Hp, Hsel. reflexivity.
Qed.

(** The rows that a query selects are rows of the index, each overlapping
    the query in time and meeting its rectangle; for a positive step they
    keep the order of the index and no row is taken twice. *)
Theorem select_index_sound (df : GeoDataFrame) (query : GeoSlice) x y t :
  _disambiguate_slice env df query = (x, y, t) ->
  (start t <= stop t)%Z -> step t <> 0%Z ->
  (start x <= stop x)%Q -> (start y <= stop y)%Q ->
  exists sel,
    select_index env df query = Ok sel /\
    (forall r, In r sel ->
       In r (rows df) /\
       time_overlaps (index_closed df) (datetime r) (start t) (stop t)
       = true /\
       meets_rectangle (geometry r) (start x) (stop x) (start y) (stop y)
       = true) /\
    (length sel <= length (rows df))%nat /\
    ((0 < step t)%Z -> sublist sel (rows df)).
Proof.
  intros Hq Ht Hstep Hx Hy.
  rewrite (select_index_run env df query x y t Hq Ht Hstep).
  rewrite (cx_filter _ _ _ _ _ Hx Hy).
  eexists. split; [reflexivity|]. split; [|split].
  - intros r Hr. apply filter_In in Hr as [Hr Hmeet].
    apply every_step_elem in Hr. apply filter_In in Hr as [Hr Hover].
    auto.
  - etransitivity; [apply sublist_length, filter_sublist|].
    unfold every_step, every_nth.
    destruct (0 <? step t)%Z.
    + etransitivity; [apply sublist_length, stride_aux_sublist|].
      apply sublist_length, filter_sublist.
    + etransitivity; [apply sublist_length, stride_aux_sublist|].
      rewrite length_reverse. apply sublist_length, filter_sublist.
  - intros Hpos. unfold every_step, every_nth.
    destruct (Z.ltb_spec 0 (step t)) as [_ | Hn]; [|lia].
    etransitivity; [apply filter_sublist|].
    etransitivity; [apply stride_aux_sublist | apply filter_sublist].
Qed.


End QueryExtras.

Lemma getitem_refuses_malformed_time_witness :
  paths demo_dataset = OnePath "root" /\
  _disambiguate_slice (demo_env (demo_frame closed_both) [])
    (index demo_dataset) (whole 0 10 0 10 9 3) =
  (mkSlice 0%Q 10%Q 1%Q, mkSlice 0%Q 10%Q 1%Q, mkSlice 9%Z 3%Z 1%Z) /\
  ((3 < 9)%Z \/ 1%Z = 0%Z) /\
  exists msg,
    AgriFieldNet_getitem (demo_env (demo_frame closed_both) [])
      demo_dataset (whole 0 10 0 10 9 3) = (Raise (ValueError msg), []).
Proof.
  assert (Hbad : (3 < 9)%Z \/ 1%Z = 0%Z) by (left; lia).
  split; [reflexivity|]. split; [reflexivity|]. split; [exact Hbad|].
  exact (getitem_refuses_malformed_time
           (demo_env (demo_frame closed_both) []) demo_dataset
           (whole 0 10 0 10 9 3) "root"
           (mkSlice 0%Q 10%Q 1%Q) (mkSlice 0%Q 10%Q 1%Q)
           (mkSlice 9%Z 3%Z 1%Z) eq_refl eq_refl Hbad).
Defined.

Lemma select_index_sound_witness :
  _disambiguate_slice (demo_env (demo_frame closed_both) [])
    (demo_frame closed_both) (whole 0 10 0 10 0 100) =
  (mkSlice 0%Q 10%Q 1%Q, mkSlice 0%Q 10%Q 1%Q, mkSlice 0%Z 100%Z 1%Z) /\
  (0 <= 100)%Z /\ 1%Z <> 0%Z /\ (0 <= 10)%Q /\ (0 <= 10)%Q /\
  exists sel,
    select_index (demo_env (demo_frame closed_both) [])
      (demo_frame closed_both) (whole 0 10 0 10 0 100) = Ok sel /\
    (length sel <= length (rows (demo_frame closed_both)))%nat.
Proof.
  assert (Ht : (0 <= 100)%Z) by lia.
  assert (Hs : 1%Z <> 0%Z) by lia.
  assert (Hq : (0 <= 10)%Q) by (intros E; discriminate E).
  repeat (split; [first [reflexivity | assumption]|]).
  destruct (select_index_sound
              (demo_env (demo_frame closed_both) [])
              (demo_frame closed_both) (whole 0 10 0 10 0 100)
              (mkSlice 0%Q 10%Q 1%Q) (mkSlice 0%Q 10%Q 1%Q)
              (mkSlice 0%Z 100%Z 1%Z) eq_refl Ht Hs Hq Hq)
    as (sel & Hrun & _ & Hlen & _).
  exists sel. split; [exact Hrun | exact Hlen].
Defined.


(** * Further properties of construction and label remapping *)

Section TableExtras.

(** The colour rows written by the loop of lines 171-173: row [v + j]
    receives the colour of the class at position [j], and the rows below [v]
    are left alone. *)
Lemma fill_ordinals_colours (classes : list Z) :
  forall v omap ocmap,
    (forall k, In k classes -> In k cmap_keys) ->
    length omap = 37%nat ->
    (v + length classes <= length ocmap)%nat ->
    exists omap' ocmap',
      fill_ordinals v classes omap ocmap = Ok (omap', ocmap') /\
      length ocmap' = length ocmap /\
      (forall j k, classes !! j = Some k ->
         exists c, cmap_getitem k = Ok c /\ ocmap' !! (v + j)%nat = Some c) /\
      (forall i, (i < v)%nat -> ocmap' !! i = ocmap !! i).
Proof.
  induction classes as [|k rest IH]; intros v omap ocmap Hkeys Hlen Hroom.
  - exists omap, ocmap. cbn [fill_ordinals].
    repeat split; try reflexivity. intros j k Hj. discriminate Hj.
  - cbn [length] in Hroom.
    destruct (cmap_key_facts k (Hkeys k (or_introl eq_refl)))
      as [Hk [c Hc]].
    cbn [fill_ordinals]. unfold tensor_setitem.
    rewrite tensor_position_in by lia. cbn [bind]. rewrite Hc. cbn [bind].
    rewrite tensor_position_in by lia. cbn [bind].
    rewrite Nat2Z.id.
    destruct (IH (S v) (<[Z.to_nat k := Z.of_nat v]> omap)
                (<[v := c]> ocmap))
      as (omap' & ocmap' & Hrun & Hlenc & Hrows & Hbelow).
    { intros k' Hk'. apply Hkeys. right. exact Hk'. }
    { rewrite length_insert. exact Hlen. }
    { rewrite length_insert. lia. }
    exists omap', ocmap'. split; [exact Hrun|].
    split; [rewrite Hlenc; apply length_insert|]. split.
    + intros j k' Hj. destruct j as [|j]; cbn [lookup list_lookup] in Hj.
      * injection Hj as <-. exists c. split; [exact Hc|].
        rewrite Nat.add_0_r, Hbelow by lia.
        apply list_lookup_insert_eq. lia.
      * destruct (Hrows j k' Hj) as (c' & Hc' & Hat).
        exists c'. split; [exact Hc'|].
        replace (v + S j)%nat with (S v + j)%nat by lia. exact Hat.
    + intros i Hi. rewrite Hbelow by lia.
      apply list_lookup_insert_ne. lia.
Qed.

Lemma init_tables (env : Env) p crs_arg classes bands_arg tf dl ds eff :
  AgriFieldNet_init env p crs_arg classes bands_arg tf dl = (Ok ds, eff) ->
  (forall k, In k classes -> In k cmap_keys) /\ In 0%Z classes /\
  paths ds = p /\ bands ds = bands_arg /\ transforms ds = tf /\
  build_ordinals classes = Ok (ordinal_map ds, ordinal_cmap ds).
Proof.
  unfold AgriFieldNet_init.
  destruct (check_classes classes) as [[]|e] eqn:Hcheck; [|discriminate].
  apply check_classes_ok in Hcheck as [Hkeys H0].
  destruct bands_arg as [|band0 rest]; [discriminate|].
  destruct (_verify env p (filename_glob band0) dl) as [[[]|e] eff'];
    [|discriminate].
  destruct (raster_init env p crs_arg (band0 :: rest)) as [made|e];
    [|discriminate].
  cbn [bind].
  destruct (build_ordinals classes) as [[omap ocmap]|e]; [|discriminate].
  cbn [bind fst snd]. intros [= <- <-].
  cbn [paths bands transforms ordinal_map ordinal_cmap].
  repeat split; try assumption; reflexivity.
Qed.

Lemma last_position_bound (k : Z) (l : list Z) v :
  last_position k l = Some v -> (v < length l)%nat.
Proof.
  intros Hv. destruct (last_position_Some _ _ _ Hv) as [Hat _].
  eapply lookup_lt_Some. exact Hat.
Qed.

Lemma ordinal_of_range (classes : list Z) (k : Z) :
  In 0%Z classes ->
  (0 <= ordinal_of classes k < Z.of_nat (length classes))%Z.
Proof.
  intros H0. unfold ordinal_of.
  destruct (last_position k classes) as [v|] eqn:E.
  - apply last_position_bound in E. lia.
  - destruct classes; [destruct H0 | cbn [length]; lia].
Qed.

End TableExtras.

Section RemapExtras.

Variable env : Env.

Lemma tensor_index_map {A} (t : list A) (f : Z -> A) (idx : list Z) :
  (forall i, In i idx -> tensor_getitem t i = Ok (f i)) ->
  tensor_index t idx = Ok (map f idx).
Proof.
  induction idx as [|i idx IH]; intros Hall; [reflexivity|].
  cbn [tensor_index map]. rewrite (Hall i (or_introl eq_refl)). cbn [bind].
  rewrite IH by (intros j Hj; apply Hall; right; exact Hj). reflexivity.
Qed.

Lemma built_ordinal_map (classes : list Z) omap ocmap :
  (forall k, In k classes -> In k cmap_keys) ->
  build_ordinals classes = Ok (omap, ocmap) ->
  length omap = 37%nat /\
  forall k, (0 <= k <= 36)%Z ->
            omap !! Z.to_nat k = Some (ordinal_of classes k).
Proof.
  intros Hkeys Hrun.
  destruct (build_ordinals_spec classes Hkeys)
    as (omap' & ocmap' & Hrun' & Hlen & _ & Hlast & Hrest).
  rewrite Hrun in Hrun'. injection Hrun' as <- <-.
  split; [exact Hlen|]. intros k Hk. unfold ordinal_of.
  destruct (last_position k classes) as [v|] eqn:E.
  - apply Hlast. exact E.
  - apply Hrest; [exact Hk|]. apply last_position_None. exact E.
Qed.

Lemma built_ordinal_cmap (classes : list Z) omap ocmap :
  (forall k, In k classes -> In k cmap_keys) ->
  build_ordinals classes = Ok (omap, ocmap) ->
  length ocmap = length classes /\
  forall v k, classes !! v = Some k ->
              exists c, cmap_getitem k = Ok c /\ ocmap !! v = Some c.
Proof.
  intros Hkeys Hrun. unfold build_ordinals in Hrun.
  rewrite table_length in Hrun.
  destruct (fill_ordinals_colours classes 0 (repeat 0%Z 37)
              (repeat (0, 0, 0, 0)%Z (length classes)) Hkeys)
    as (omap' & ocmap' & Hrun' & Hlenc & Hrows & _).
  { apply repeat_length. }
  { rewrite repeat_length. lia. }
  rewrite Hrun in Hrun'. injection Hrun' as <- <-.
  split; [rewrite Hlenc; apply repeat_length|].
  intros v k Hv. exact (Hrows v k Hv).
Qed.

(** The two tables of a constructed dataset: the colour table has one row
    per requested class, row [v] holding the colour of the class at position
    [v]; the ordinal table sends every raw id in [[0, 36]] to its ordinal,
    and holds nothing but ordinals below the number of requested classes. *)
Theorem init_builds_tables p crs_arg classes bands_arg tf dl ds eff :
  AgriFieldNet_init env p crs_arg classes bands_arg tf dl = (Ok ds, eff) ->
  length (ordinal_cmap ds) = length classes /\
  (forall v k, classes !! v = Some k ->
     exists c, cmap_getitem k = Ok c /\ ordinal_cmap ds !! v = Some c) /\
  (forall k, (0 <= k <= 36)%Z ->
     ordinal_map ds !! Z.to_nat k = Some (ordinal_of classes k)) /\
  (forall i o, ordinal_map ds !! i = Some o ->
     (0 <= o < Z.of_nat (length classes))%Z).
Proof.
  intros Hinit.
  destruct (init_tables env _ _ _ _ _ _ _ _ Hinit)
    as (Hkeys & H0 & _ & _ & _ & Hrun).
  destruct (built_ordinal_map _ _ _ Hkeys Hrun) as [Hlen Hmap].
  destruct (built_ordinal_cmap _ _ _ Hkeys Hrun) as [Hlenc Hrows].
  split; [exact Hlenc|]. split; [exact Hrows|]. split; [exact Hmap|].
  intros i o Hat.
  assert (Hi : (i < 37)%nat)
    by (rewrite <- Hlen; eapply lookup_lt_Some; exact Hat).
  specialize (Hmap (Z.of_nat i) ltac:(lia)). rewrite Nat2Z.id in Hmap.
  rewrite Hmap in Hat. injection Hat as <-.
  apply ordinal_of_range. exact H0.
Qed.

(** A query on a constructed dataset that selects some row and reads a
    label raster with values in [[0, 36]] returns a sample (handed to the
    transform when there is one) that carries the CRS of the dataset and the
    query as its bounds, whose image is the per-band reads joined in band
    order, and whose mask holds, pixel by pixel, the ordinal of the raw
    label, always below the number of requested classes.  It reads one
    raster set per band, in band order, then walks the label directory and
    reads the labels. *)
Theorem getitem_remaps_labels
    p crs_arg classes bands_arg tf dl ds eff0 query root r rs :
  AgriFieldNet_init env p crs_arg classes bands_arg tf dl = (Ok ds, eff0) ->
  p = OnePath root ->
  select_index env (index ds) query = Ok (r :: rs) ->
  (forall px, In px (_merge_files env (mask_filepaths env root) query) ->
     (0 <= py_int px <= 36)%Z) ->
  let band_files :=
    map (fun band => map (band_filepath env band) (map filepath (r :: rs)))
        bands_arg in
  let labels := _merge_files env (mask_filepaths env root) query in
  let sample :=
    mkSample (crs ds) query
      (concat (map (fun fs => _merge_files env fs query) band_files))
      (map (fun px => ordinal_of classes (py_int px)) labels) in
  AgriFieldNet_getitem env ds query =
  (Ok (match tf with Some f => f sample | None => sample end),
   map (fun fs => ReadRasters fs query) band_files ++
   [WalkDir (os_path_join env root "train_labels");
    ReadRasters (mask_filepaths env root) query]) /\
  length (sample_mask sample) = length labels /\
  (forall o, In o (sample_mask sample) ->
     (0 <= o < Z.of_nat (length classes))%Z).
Proof.
  intros Hinit Hp Hsel Hpix band_files labels sample.
  destruct (init_tables env _ _ _ _ _ _ _ _ Hinit)
    as (Hkeys & H0 & Hpaths & Hbands & Htf & Hrun).
  destruct (built_ordinal_map _ _ _ Hkeys Hrun) as [Hlen Hmap].
  assert (Hidx : tensor_index (ordinal_map ds) (map py_int labels) =
                 Ok (map (ordinal_of classes) (map py_int labels))).
  { apply tensor_index_map. intros i Hi.
    apply in_map_iff in Hi as (px & <- & Hpx). specialize (Hpix px Hpx).
    unfold tensor_getitem.
    rewrite tensor_position_in by (rewrite Hlen; lia). cbn [bind].
    rewrite (Hmap (py_int px) Hpix). reflexivity. }
  rewrite map_map in Hidx.
  split; [|split].
  - unfold AgriFieldNet_getitem. rewrite Hpaths, Hp, Hsel, Hbands.
    fold band_files. fold labels. rewrite Hidx, Htf. reflexivity.
  - subst sample. cbn [sample_mask]. apply length_map.
  - subst sample. cbn [sample_mask]. intros o Ho.
    apply in_map_iff in Ho as (px & <- & _).
    apply ordinal_of_range. exact H0.
Qed.

End RemapExtras.

Lemma init_builds_tables_witness :
  AgriFieldNet_init (demo_env (demo_frame closed_both) demo_labels)
    (OnePath "root") None [0; 1]%Z ["B01"%string] None false =
  (Ok demo_built, []) /\
  length (ordinal_cmap demo_built) = 2%nat /\
  ordinal_map demo_built !! 1%nat = Some 1%Z.
Proof.
  split; [reflexivity|].
  destruct (init_builds_tables
              (demo_env (demo_frame closed_both) demo_labels)
              (OnePath "root") None [0; 1]%Z ["B01"%string] None false
              demo_built [] eq_refl) as (Hlen & _ & Hmap & _).
  split; [exact Hlen|]. exact (Hmap 1%Z ltac:(lia)).
Defined.

Lemma getitem_remaps_labels_witness :
  AgriFieldNet_init (demo_env (demo_frame closed_both) [1%Q; 5%Q; 0%Q])
    (OnePath "root") None [0; 1]%Z ["B01"%string] None false =
  (Ok demo_built, []) /\
  select_index (demo_env (demo_frame closed_both) [1%Q; 5%Q; 0%Q])
    (index demo_built) (whole 0 10 0 10 0 100) = Ok [demo_row 5 10] /\
  (forall px, In px [1%Q; 5%Q; 0%Q] -> (0 <= py_int px <= 36)%Z) /\
  sample_mask
    (match fst (AgriFieldNet_getitem
                  (demo_env (demo_frame closed_both) [1%Q; 5%Q; 0%Q])
                  demo_built (whole 0 10 0 10 0 100)) with
     | Ok sample => sample
     | Raise _ => mkSample "" (whole 0 0 0 0 0 0) [] []
     end) = [1; 0; 0]%Z.
Proof.
  assert (Hpix : forall px, In px [1%Q; 5%Q; 0%Q] ->
                            (0 <= py_int px <= 36)%Z).
  { intros px [<- | [<- | [<- | []]]]; vm_compute; split; discriminate. }
  split; [reflexivity|]. split; [reflexivity|]. split; [exact Hpix|].
  rewrite (proj1 (getitem_remaps_labels
                    (demo_env (demo_frame closed_both) [1%Q; 5%Q; 0%Q])
                    (OnePath "root") None [0; 1]%Z ["B01"%string] None false
                    demo_built [] (whole 0 10 0 10 0 100) "root"
                    (demo_row 5 10) [] eq_refl eq_refl eq_refl Hpix)).
  reflexivity.
Defined.

(** * Properties of plot *)

Section PlotExtras.

Lemma str_in_iff (band : string) (l : list string) :
  str_in band l = true <-> In band l.
Proof.
  unfold str_in. rewrite existsb_exists. split.
  - intros (a & Ha & E). apply String.eqb_eq in E. subst a. exact Ha.
  - intros Hb. exists band. split; [exact Hb | apply String.eqb_refl].
Qed.

(** [bands.index(band)] is the first position that holds [band]. *)
Lemma list_index_first (band : string) (l : list string) :
  forall i, list_index band l = Some i ->
            l !! i = Some band /\
            forall j, (j < i)%nat -> l !! j <> Some band.
Proof.
  induction l as [|a l IH]; intros i; cbn [list_index]; [discriminate|].
  destruct (String.eqb_spec a band) as [-> | Hne].
  - intros [= <-]. split; [reflexivity | intros j Hj; lia].
  - destruct (list_index band l) as [i0|]; [|discriminate].
    cbn [option_map]. intros [= <-]. destruct (IH i0 eq_refl) as [Hat Hfirst].
    split; [exact Hat|]. intros j Hj. destruct j as [|j].
    + cbn [lookup list_lookup]. congruence.
    + cbn [lookup list_lookup]. apply Hfirst. lia.
Qed.

Lemma list_index_in (band : string) (l : list string) :
  In band l -> exists i, list_index band l = Some i.
Proof.
  induction l as [|a l IH]; intros Hin; [destruct Hin|].
  cbn [list_index]. destruct (String.eqb_spec a band) as [-> | Hne].
  - exists 0%nat. reflexivity.
  - destruct Hin as [E | Hin]; [contradiction|].
    destruct (IH Hin) as [i Hi]. rewrite Hi. exists (S i). reflexivity.
Qed.

Lemma rgb_indices_missing (rgb bands_ : list string) :
  rgb_indices rgb bands_ = None <->
  exists band, In band rgb /\ ~ In band bands_.
Proof.
  induction rgb as [|band rgb IH]; cbn [rgb_indices].
  - split; [discriminate | intros (b & [] & _)].
  - destruct (str_in band bands_) eqn:E.
    + apply str_in_iff in E. destruct (list_index_in _ _ E) as [i Hi].
      rewrite Hi. destruct (rgb_indices rgb bands_) as [rest|].
      * split; [discriminate|]. intros (b & [<- | Hb] & Hout);
          [contradiction|].
        assert (Hnone : Some rest = None)
          by (apply (proj2 IH); exists b; auto).
        discriminate Hnone.
      * split; [|reflexivity]. intros _.
        destruct (proj1 IH eq_refl) as (b & Hb & Hout).
        exists b. split; [right; exact Hb | exact Hout].
    + split; [|reflexivity]. intros _. exists band.
      split; [left; reflexivity|]. rewrite <- str_in_iff. congruence.
Qed.

Lemma rgb_indices_found (rgb bands_ : list string) :
  forall idx, rgb_indices rgb bands_ = Some idx ->
    Forall2 (fun band i =>
               bands_ !! i = Some band /\
               forall j, (j < i)%nat -> bands_ !! j <> Some band)
            rgb idx.
Proof.
  induction rgb as [|band rgb IH]; intros idx; cbn [rgb_indices].
  - intros [= <-]. constructor.
  - destruct (str_in band bands_); [|discriminate].
    destruct (list_index band bands_) as [i|] eqn:Hi; [|discriminate].
    destruct (rgb_indices rgb bands_) as [rest|]; [|discriminate].
    intros [= <-]. constructor; [apply list_index_first; exact Hi|].
    apply IH. reflexivity.
Qed.

(** [plot] raises [RGBBandsMissingError] exactly when one of B04, B03, B02
    is not among the bands of the dataset, whatever the sample; when it draws
    a figure, the RGB panel uses the first positions of B04, B03 and B02 in
    the band list, in this order, and the figure has three panels with a
    prediction and two without. *)
Theorem plot_needs_rgb_bands (ds : AgriFieldNet) (sample : PlotSample) :
  (plot ds sample = PlotRaise RGBBandsMissingError <->
   exists band, In band rgb_bands /\ ~ In band (bands ds)) /\
  (forall fig, plot ds sample = Drawn fig ->
     Forall2 (fun band i =>
                bands ds !! i = Some band /\
                forall j, (j < i)%nat -> bands ds !! j <> Some band)
             rgb_bands (fig_channels fig) /\
     fig_ncols fig = match plot_prediction sample with
                     | Some _ => 3%nat
                     | None => 2%nat
                     end).
Proof.
  unfold plot. split.
  - rewrite <- rgb_indices_missing.
    destruct (rgb_indices rgb_bands (bands ds)) as [channels|];
      [|split; reflexivity].
    split; [|discriminate].
    destruct (tensor_index (ordinal_cmap ds) (plot_mask sample));
      [|discriminate].
    destruct (plot_prediction sample) as [pred|]; [|discriminate].
    destruct (tensor_index (ordinal_cmap ds) pred); discriminate.
  - intros fig.
    destruct (rgb_indices rgb_bands (bands ds)) as [channels|] eqn:Hrgb;
      [|discriminate].
    apply rgb_indices_found in Hrgb.
    destruct (tensor_index (ordinal_cmap ds) (plot_mask sample));
      [|discriminate].
    destruct (plot_prediction sample) as [pred|].
    + destruct (tensor_index (ordinal_cmap ds) pred); [|discriminate].
      intros [= <-]. cbn [fig_channels fig_ncols]. auto.
    + intros [= <-]. cbn [fig_channels fig_ncols]. auto.
Qed.

End PlotExtras.

Lemma plot_needs_rgb_bands_witness :
  (exists band, In band rgb_bands /\ ~ In band (bands demo_dataset)) /\
  plot demo_dataset (mkPlotSample [] [0%Z] None) =
  PlotRaise RGBBandsMissingError.
Proof.
  assert (Hmiss : exists band,
            In band rgb_bands /\ ~ In band (bands demo_dataset)).
  { exists "B04"%string. split; [left; reflexivity|].
    intros [E | []]. discriminate E. }
  split; [exact Hmiss|].
  exact (proj2 (proj1 (plot_needs_rgb_bands demo_dataset
                         (mkPlotSample [] [0%Z] None))) Hmiss).
Defined.

Section PlotColours.

Variable env : Env.



End PlotColours.


(** * Properties of verification and construction failures *)

Section VerifyExtras.

Variable env : Env.

(** [_verify] leaves the world alone when the files are there or when no
    download was asked for; it fails with [DatasetNotFoundError] when the
    files are missing and no download was asked for; and it creates the
    root directory and runs azcopy exactly when the files are missing, a
    download was asked for and the dataset has a single root path. *)
Theorem verify_downloads_only_when_needed (p : Paths) (g : string) (dl : bool) :
  (files env p g <> [] -> _verify env p g dl = (Ok tt, [])) /\
  (files env p g = [] -> dl = false ->
   _verify env p g dl = (Raise DatasetNotFoundError, [])) /\
  (forall root, files env p g = [] -> dl = true -> p = OnePath root ->
   _verify env p g dl = (Ok tt, [MakeDirs root; AzCopySync url root])) /\
  (forall ps, files env p g = [] -> dl = true -> p = ManyPaths ps ->
   exists msg, _verify env p g dl = (Raise (AssertionError msg), [])) /\
  (snd (_verify env p g dl) <> [] <->
   files env p g = [] /\ dl = true /\ exists root, p = OnePath root).
Proof.
  unfold _verify, _download.
  split; [|split; [|split; [|split]]].
  - intros Hf. destruct (files env p g); [contradiction | reflexivity].
  - intros -> ->. reflexivity.
  - intros root -> -> ->. reflexivity.
  - intros ps -> -> ->. eexists. reflexivity.
  - destruct (files env p g) as [|f fs]; cbn [snd].
    + destruct dl; cbn [snd].
      * destruct p as [root | ps]; cbn [snd].
        -- split; [intros _; eauto | discriminate].
        -- split; [contradiction|]. intros (_ & _ & root & Hp). discriminate.
      * split; [contradiction|]. intros (_ & Hd & _). discriminate.
    + split; [contradiction|]. intros (Hf & _). discriminate.
Qed.

End VerifyExtras.

Lemma verify_downloads_only_when_needed_witness :
  files (demo_env (mkFrame [] closed_both) []) (OnePath "root")
    (filename_glob "B01") = [] /\
  _verify (demo_env (mkFrame [] closed_both) []) (OnePath "root")
    (filename_glob "B01") true =
  (Ok tt, [MakeDirs "root"; AzCopySync url "root"]).
Proof.
  split; [reflexivity|].
  exact (proj1 (proj2 (proj2 (verify_downloads_only_when_needed
                                (demo_env (mkFrame [] closed_both) [])
                                (OnePath "root") (filename_glob "B01") true)))
           "root"%string eq_refl eq_refl eq_refl).
Defined.

Section InitFailures.

Variable env : Env.

(** After the class check, [__init__] fails with [IndexError] on an empty
    band list; it looks for the files of the first band and fails with
    [DatasetNotFoundError], touching nothing, when there are none and no
    download was asked for; and a failure to build the index is passed on
    after whatever the verification did. *)
Theorem init_fails_without_files p crs_arg classes bands_arg tf dl :
  check_classes classes = Ok tt ->
  (bands_arg = [] ->
   exists msg,
     AgriFieldNet_init env p crs_arg classes bands_arg tf dl =
     (Raise (IndexError msg), [])) /\
  (forall band0 rest,
     bands_arg = band0 :: rest ->
     files env p (filename_glob band0) = [] -> dl = false ->
     AgriFieldNet_init env p crs_arg classes bands_arg tf dl =
     (Raise DatasetNotFoundError, [])) /\
  (forall band0 rest e eff,
     bands_arg = band0 :: rest ->
     _verify env p (filename_glob band0) dl = (Ok tt, eff) ->
     raster_init env p crs_arg bands_arg = Raise e ->
     AgriFieldNet_init env p crs_arg classes bands_arg tf dl =
     (Raise e, eff)).
Proof.
  intros Hcheck. unfold AgriFieldNet_init. rewrite Hcheck.
  split; [|split].
  - intros ->. eexists. reflexivity.
  - intros band0 rest -> Hfiles ->. unfold _verify. rewrite Hfiles.
    reflexivity.
  - intros band0 rest e eff -> Hverify Hindex.
    rewrite Hverify, Hindex. reflexivity.
Qed.

End InitFailures.

Lemma init_fails_without_files_witness :
  check_classes [0; 1]%Z = Ok tt /\
  files (demo_env (mkFrame [] closed_both) []) (OnePath "root")
    (filename_glob "B01") = [] /\
  AgriFieldNet_init (demo_env (mkFrame [] closed_both) [])
    (OnePath "root") None [0; 1]%Z ["B01"%string] None false =
  (Raise DatasetNotFoundError, []).
Proof.
  split; [reflexivity|]. split; [reflexivity|].
  exact (proj1 (proj2 (init_fails_without_files
                         (demo_env (mkFrame [] closed_both) [])
                         (OnePath "root") None [0; 1]%Z ["B01"%string]
                         None false eq_refl))
           "B01"%string [] eq_refl eq_refl eq_refl).
Defined.

(** * Properties of the file names *)

Section Strings.

Lemma string_length_app (a b : string) :
  String.length (String.append a b) = (String.length a + String.length b)%nat.
Proof.
  induction a as [|c a IH]; [reflexivity|].
  cbn [String.append String.length]. rewrite IH. reflexivity.
Qed.

Lemma substring_whole (s : string) : substring 0 (String.length s) s = s.
Proof.
  induction s as [|c s IH]; [reflexivity|].
  cbn [String.length substring]. rewrite IH. reflexivity.
Qed.

Lemma substring_after_prefix (p s : string) :
  substring (String.length p) (String.length s) (String.append p s) = s.
Proof.
  induction p as [|c p IH]; cbn [String.length String.append].
  - apply substring_whole.
  - cbn [substring]. exact IH.
Qed.

Lemma substring_prefix_length (s : string) :
  forall k, (k <= String.length s)%nat ->
            String.length (substring 0 k s) = k.
Proof.
  induction s as [|c s IH]; intros k Hk; cbn [String.length] in Hk.
  - replace k with 0%nat by lia. reflexivity.
  - destruct k as [|k]; [reflexivity|]. cbn [substring String.length].
    rewrite IH by lia. reflexivity.
Qed.

(** A string is its first [k] characters followed by the rest. *)
Lemma substring_split (s : string) :
  forall k, (k <= String.length s)%nat ->
    s = String.append (substring 0 k s)
          (substring k (String.length s - k) s).
Proof.
  induction s as [|c s IH]; intros k Hk; cbn [String.length] in Hk.
  - replace k with 0%nat by lia. reflexivity.
  - destruct k as [|k].
    + cbn [substring String.append String.length Nat.sub].
      rewrite substring_whole. reflexivity.
    + cbn [substring String.append String.length Nat.sub].
      rewrite <- IH by lia. reflexivity.
Qed.

(** ... and, cut twice, its first [a] characters, the characters from [a]
    to [b], and the rest. *)
Lemma substring_split3 (s : string) :
  forall a b, (a <= b)%nat -> (b <= String.length s)%nat ->
    s = String.append (substring 0 a s)
          (String.append (substring a (b - a) s)
             (substring b (String.length s - b) s)).
Proof.
  induction s as [|c s IH]; intros a b Hab Hb; cbn [String.length] in Hb.
  - replace b with 0%nat by lia. replace a with 0%nat by lia. reflexivity.
  - destruct a as [|a].
    + replace (substring 0 0 (String c s)) with EmptyString by reflexivity.
      cbn [String.append]. rewrite Nat.sub_0_r.
      apply (substring_split (String c s) b). cbn [String.length]. lia.
    + destruct b as [|b]; [lia|].
      cbn [substring String.append String.length Nat.sub].
      rewrite <- IH by lia. reflexivity.
Qed.

(** [endswith] holds exactly of the strings that end with the suffix. *)
Lemma endswith_iff (s suffix : string) :
  endswith s suffix = true <-> exists stem, s = String.append stem suffix.
Proof.
  unfold endswith. rewrite andb_true_iff, Nat.leb_le, String.eqb_eq. split.
  - intros [Hlen Hsub].
    exists (substring 0 (String.length s - String.length suffix) s).
    pose proof (substring_split s (String.length s - String.length suffix)
                  ltac:(lia)) as Hsplit.
    replace (String.length s - (String.length s - String.length suffix))%nat
      with (String.length suffix) in Hsplit by lia.
    rewrite Hsub in Hsplit. exact Hsplit.
  - intros [stem ->]. rewrite string_length_app. split; [lia|].
    replace (String.length stem + String.length suffix
             - String.length suffix)%nat
      with (String.length stem) by lia.
    apply substring_after_prefix.
Qed.

End Strings.

Section FileNames.

Variable env : Env.

(** The label files of lines 218-223 are exactly the files found below
    [train_labels] whose name ends in [.tif] but not in [_field_ids.tif],
    each joined to its directory: a field-id raster is never read as a
    mask. *)
Theorem mask_filepaths_are_label_rasters (root path : string) :
  In path (mask_filepaths env root) <->
  exists dir fs file,
    In (dir, fs) (os_walk env (os_path_join env root "train_labels")) /\
    In file fs /\
    (exists stem, file = String.append stem ".tif") /\
    ~ (exists stem, file = String.append stem "_field_ids.tif") /\
    path = os_path_join env dir file.
Proof.
  unfold mask_filepaths. rewrite in_flat_map. split.
  - intros ([dir fs] & Hwalk & Hin).
    apply in_map_iff in Hin as (file & <- & Hfile).
    apply filter_In in Hfile as [Hfile Hkeep].
    apply andb_true_iff in Hkeep as [Hnot Htif].
    exists dir, fs, file. split; [exact Hwalk|]. split; [exact Hfile|].
    split; [apply endswith_iff; exact Htif|]. split; [|reflexivity].
    intros Hids. apply endswith_iff in Hids. rewrite Hids in Hnot.
    discriminate Hnot.
  - intros (dir & fs & file & Hwalk & Hfile & Htif & Hnot & ->).
    exists (dir, fs). split; [exact Hwalk|].
    apply in_map. apply filter_In. split; [exact Hfile|].
    apply andb_true_iff. split; [|apply endswith_iff; exact Htif].
    apply negb_true_iff.
    destruct (endswith file "_field_ids.tif") eqn:E; [|reflexivity].
    exfalso. apply Hnot, endswith_iff, E.
Qed.

(** Lines 205-213 replace exactly the characters that the regular
    expression matched as the band: the characters before and after the
    match are kept, so asking for the band the file already has gives the
    file name back, and a name that does not match is kept as it is. *)
Theorem band_filepath_substitutes (band fp : string) :
  (match_band env (os_path_basename env fp) = None ->
   band_filepath env band fp =
   os_path_join env (os_path_dirname env fp) (os_path_basename env fp)) /\
  (forall s e,
     match_band env (os_path_basename env fp) = Some (s, e) ->
     (s <= e)%nat -> (e <= String.length (os_path_basename env fp))%nat ->
     exists pre post,
       os_path_basename env fp =
       String.append pre
         (String.append (substring s (e - s) (os_path_basename env fp))
            post) /\
       String.length pre = s /\
       band_filepath env band fp =
       os_path_join env (os_path_dirname env fp)
         (String.append pre (String.append band post)) /\
       (substring s (e - s) (os_path_basename env fp) = band ->
        band_filepath env band fp =
        os_path_join env (os_path_dirname env fp)
          (os_path_basename env fp))).
Proof.
  unfold band_filepath. split.
  - intros ->. reflexivity.
  - intros s e -> Hse He.
    set (name := os_path_basename env fp) in *.
    pose proof (substring_split3 name s e Hse He) as Hsplit.
    exists (substring 0 s name),
           (substring e (String.length name - e) name).
    split; [exact Hsplit|].
    split; [apply substring_prefix_length; lia|].
    split; [reflexivity|].
    intros Hband. rewrite <- Hband at 1. rewrite <- Hsplit. reflexivity.
Qed.

End FileNames.

Lemma band_filepath_substitutes_witness :
  match_band demo_band_env (os_path_basename demo_band_env "tile_B01_10m.tif")
  = Some (5, 8)%nat /\
  (5 <= 8)%nat /\ (8 <= String.length "tile_B01_10m.tif")%nat /\
  exists pre post,
    String.length pre = 5%nat /\
    band_filepath demo_band_env "B8A" "tile_B01_10m.tif" =
    os_path_join demo_band_env "."
      (String.append pre (String.append "B8A" post)).
Proof.
  assert (Hse : (5 <= 8)%nat) by lia.
  assert (He : (8 <= String.length "tile_B01_10m.tif")%nat) by (cbn; lia).
  split; [reflexivity|]. split; [exact Hse|]. split; [exact He|].
  destruct (proj2 (band_filepath_substitutes demo_band_env
                     "B8A" "tile_B01_10m.tif") 5%nat 8%nat eq_refl Hse He)
    as (pre & post & _ & Hlen & Hrun & _).
  exists pre, post. split; [exact Hlen | exact Hrun].
Defined.

Lemma mask_filepaths_are_label_rasters_witness :
  (exists dir fs file,
     In (dir, fs)
        (os_walk (demo_env (demo_frame closed_both) [])
           (os_path_join (demo_env (demo_frame closed_both) [])
              "root" "train_labels")) /\
     In file fs /\
     (exists stem, file = String.append stem ".tif") /\
     ~ (exists stem, file = String.append stem "_field_ids.tif") /\
     "root/train_labels/a.tif"%string =
     os_path_join (demo_env (demo_frame closed_both) []) dir file) /\
  In "root/train_labels/a.tif"%string
     (mask_filepaths (demo_env (demo_frame closed_both) []) "root") /\
  ~ In "root/train_labels/a_field_ids.tif"%string
       (mask_filepaths (demo_env (demo_frame closed_both) []) "root").
Proof.
  assert (Hfile : exists dir fs file,
            In (dir, fs)
               (os_walk (demo_env (demo_frame closed_both) [])
                  (os_path_join (demo_env (demo_frame closed_both) [])
                     "root" "train_labels")) /\
            In file fs /\
            (exists stem, file = String.append stem ".tif") /\
            ~ (exists stem, file = String.append stem "_field_ids.tif") /\
            "root/train_labels/a.tif"%string =
            os_path_join (demo_env (demo_frame closed_both) []) dir file).
  { exists "root/train_labels"%string, ["a.tif"; "a_field_ids.tif"]%string,
           "a.tif"%string.
    split; [left; reflexivity|]. split; [left; reflexivity|].
    split; [exists "a"%string; reflexivity|]. split; [|reflexivity].
    intros Hids. apply endswith_iff in Hids. discriminate Hids. }
  split; [exact Hfile|]. split.
  - exact (proj2 (mask_filepaths_are_label_rasters
                    (demo_env (demo_frame closed_both) []) "root"
                    "root/train_labels/a.tif") Hfile).
  - intros [E | []]. discriminate E.
Defined.
